(** * Log processing pipeline (dataflow/log_processing_pipeline.py)

    A shallow embedding of the three [DoFn]s of the pipeline
    ([ParseLogEntry], [EnrichLogs], [DetermineShardTable]) and of the
    pipeline that [run_pipeline] builds, over a small model of the Python
    values they handle, followed by the properties of the specification. *)

From Stdlib Require Import List ZArith NArith Lia Bool String Ascii.
From Stdlib Require Import Strings.Byte DecimalString DecimalPos DecimalZ.
Import ListNotations.
Local Open Scope Z_scope.

(** ** Python values *)

(** A Python [str] is a sequence of Unicode code points: [len] counts code
    points and a slice cuts between them. *)
Definition char := N.
Definition str := list char.

(** A string literal of the source, as a [str]. *)
Definition lit (s : string) : str := map N_of_ascii (list_ascii_of_string s).

Fixpoint str_eqb (a b : str) : bool :=
  match a, b with
  | [], [] => true
  | x :: a', y :: b' => N.eqb x y && str_eqb a' b'
  | _, _ => false
  end.

(** The values that reach the pipeline: what [json.loads] builds, and the
    [bytes] payload of a Pub/Sub message.  A [dict] keeps its entries in
    insertion order, one entry per key.  A [float] is kept as the literal
    that denotes it: the pipeline does no arithmetic on it. *)
#[warnings="-register-all"]
Inductive value :=
| VNone
| VBool (b : bool)
| VInt (z : Z)
| VFloat (literal : str)
| VStr (s : str)
| VBytes (b : list byte)
| VList (l : list value)
| VDict (d : list (str * value)).

Definition dict := list (str * value).

(** The exceptions the modelled code can raise.  All derive from
    [Exception] but [SystemExit], which only argument parsing raises. *)
Inductive exn :=
| UnicodeDecodeError
| JSONDecodeError
| AttributeError
| TypeError
| KeyError
| ValueError
| SystemExit.

Inductive result (A : Type) :=
| Ok (a : A)
| Raise (e : exn).
Arguments Ok {A} a.
Arguments Raise {A} e.

Definition bind {A B} (r : result A) (k : A -> result B) : result B :=
  match r with
  | Ok a => k a
  | Raise e => Raise e
  end.

Notation "x <- r ;; k" := (bind r (fun x => k))
  (at level 61, r at next level, right associativity).

Definition of_option {A} (e : exn) (o : option A) : result A :=
  match o with
  | Some a => Ok a
  | None => Raise e
  end.

(** ** The interpreter and its libraries

    What the code calls and the repository does not define: the UTF-8
    codec, the [json] decoder and the built-in [hash].  [hash] of a [str]
    depends on the seed the interpreter process picked at start; within the
    process it is a function of the value.  [slice_hashable] tells the
    version: from Python 3.12 on a slice is hashable, so that a [dict]
    looks it up as a key.  Properties are proved for every runtime. *)
Class Runtime := {
  bytes_decode : list byte -> option str;
  json_loads : str -> option value;
  py_hash_value : value -> Z;
  slice_hashable : bool
}.

(** ** Dictionaries *)

Fixpoint lookup (k : str) (d : dict) : option value :=
  match d with
  | [] => None
  | (k', v) :: d' => if str_eqb k k' then Some v else lookup k d'
  end.

(** [d[k] = v]: an existing key keeps its place, a new one goes last. *)
Fixpoint dict_set (d : dict) (k : str) (v : value) : dict :=
  match d with
  | [] => [(k, v)]
  | (k', v') :: d' =>
      if str_eqb k k' then (k', v) :: d' else (k', v') :: dict_set d' k v
  end.

(** [d.get(k, default)] on a [dict]. *)
Definition dict_get (d : dict) (k : str) (default : value) : value :=
  match lookup k d with
  | Some v => v
  | None => default
  end.

(** [d[k]] on a [dict]. *)
Definition dict_getitem (d : dict) (k : str) : result value :=
  of_option KeyError (lookup k d).

(** [obj.get(k, default)] on any value: only a [dict] has the method. *)
Definition py_get (obj : value) (k : str) (default : value) : result value :=
  match obj with
  | VDict d => Ok (dict_get d k default)
  | _ => Raise AttributeError
  end.

(** [len(obj)]. *)
Definition py_len (obj : value) : result Z :=
  match obj with
  | VStr s => Ok (Z.of_nat (List.length s))
  | VBytes b => Ok (Z.of_nat (List.length b))
  | VList l => Ok (Z.of_nat (List.length l))
  | VDict d => Ok (Z.of_nat (List.length d))
  | VNone | VBool _ | VInt _ | VFloat _ => Raise TypeError
  end.

(** [obj[:n]]: sequences are cut.  A [dict] takes the slice for a key:
    unhashable, it is a [TypeError]; hashable (Python 3.12 on), it is a key
    the dict does not have, a [KeyError].  The rest is not subscriptable. *)
Definition py_slice_to `{Runtime} (n : nat) (obj : value) : result value :=
  match obj with
  | VStr s => Ok (VStr (firstn n s))
  | VBytes b => Ok (VBytes (firstn n b))
  | VList l => Ok (VList (firstn n l))
  | VDict _ => Raise (if slice_hashable then KeyError else TypeError)
  | VNone | VBool _ | VInt _ | VFloat _ => Raise TypeError
  end.

(** [a + s] for a [str] [s]: only [str + str] is defined. *)
Definition py_add_str (a : value) (s : str) : result value :=
  match a with
  | VStr a' => Ok (VStr (a' ++ s))
  | _ => Raise TypeError
  end.

(** [hash(obj)]: lists and dicts are unhashable. *)
Definition py_hash `{Runtime} (obj : value) : result Z :=
  match obj with
  | VList _ | VDict _ => Raise TypeError
  | _ => Ok (py_hash_value obj)
  end.

(** ** ParseLogEntry *)

(** The two Beam counters of [ParseLogEntry] and what [logger.error] was
    called with. *)
Record Metrics := {
  parse_errors : Z;
  valid_logs : Z;
  logged : list exn
}.

Definition inc_valid_logs (m : Metrics) : Metrics :=
  {| parse_errors := parse_errors m;
     valid_logs := valid_logs m + 1;
     logged := logged m |}.

Definition inc_parse_errors (e : exn) (m : Metrics) : Metrics :=
  {| parse_errors := parse_errors m + 1;
     valid_logs := valid_logs m;
     logged := logged m ++ [e] |}.

(** Lines 37-40: a [bytes] payload is decoded, a [str] goes through
    [json.loads], anything else is taken as it is. *)
Definition load_log_data `{Runtime} (element : value) : result value :=
  element <- match element with
             | VBytes b => s <- of_option UnicodeDecodeError (bytes_decode b) ;;
                           Ok (VStr s)
             | _ => Ok element
             end ;;
  match element with
  | VStr s => of_option JSONDecodeError (json_loads s)
  | _ => Ok element
  end.

(** Lines 43-54: the dict display, its entries evaluated in order (an
    argument before the call it is passed to). *)
Definition extract_fields (log_data : value) : result dict :=
  timestamp <- py_get log_data (lit "timestamp") VNone ;;
  severity <- py_get log_data (lit "severity") (VStr (lit "INFO")) ;;
  fallback <- py_get log_data (lit "message") (VStr (lit "")) ;;
  message <- py_get log_data (lit "textPayload") fallback ;;
  resource <- py_get log_data (lit "resource") (VDict []) ;;
  resource_type <- py_get resource (lit "type") (VStr (lit "unknown")) ;;
  resource <- py_get log_data (lit "resource") (VDict []) ;;
  labels <- py_get resource (lit "labels") (VDict []) ;;
  project_id <- py_get labels (lit "project_id") (VStr (lit "unknown")) ;;
  trace_id <- py_get log_data (lit "trace") VNone ;;
  span_id <- py_get log_data (lit "spanId") VNone ;;
  top_labels <- py_get log_data (lit "labels") (VDict []) ;;
  resource <- py_get log_data (lit "resource") (VDict []) ;;
  labels <- py_get resource (lit "labels") (VDict []) ;;
  resource_name <- py_get labels (lit "container_name") (VStr (lit "")) ;;
  source_location <- py_get log_data (lit "sourceLocation") (VDict []) ;;
  Ok [ (lit "timestamp", timestamp);
       (lit "severity", severity);
       (lit "message", message);
       (lit "resource_type", resource_type);
       (lit "project_id", project_id);
       (lit "trace_id", trace_id);
       (lit "span_id", span_id);
       (lit "labels", top_labels);
       (lit "resource_name", resource_name);
       (lit "source_location", source_location) ].

Module ParseLogEntry.

(** [process]: the records yielded and the counters afterwards.  Whatever
    the [try] block raises is caught by [except Exception]. *)
Definition process `{Runtime} (element : value) (m : Metrics)
  : list dict * Metrics :=
  match log_data <- load_log_data element ;; extract_fields log_data with
  | Ok processed_log => ([processed_log], inc_valid_logs m)
  | Raise e => ([], inc_parse_errors e m)
  end.

End ParseLogEntry.

(** ** EnrichLogs *)

Module EnrichLogs.

(** The body of [process]; [now] is what [datetime.utcnow().isoformat()]
    returns at the call.  An exception raised here is not caught. *)
Definition enrich `{Runtime} (now : str) (element : dict) : result dict :=
  let element := dict_set element (lit "ingestion_time") (VStr now) in
  let element := dict_set element (lit "pipeline_version") (VStr (lit "1.0.0")) in
  n <- py_len (dict_get element (lit "message") (VStr (lit ""))) ;;
  if 1000 <? n then
    message <- dict_getitem element (lit "message") ;;
    prefix <- py_slice_to 1000 message ;;
    truncated <- py_add_str prefix (lit "...[TRUNCATED]") ;;
    Ok (dict_set element (lit "message") truncated)
  else Ok element.

Definition process `{Runtime} (now : str) (element : dict)
  : result (list dict) :=
  element <- enrich now element ;;
  Ok [element].

End EnrichLogs.

(** ** DetermineShardTable *)

(** [str(n)] of an [int], as an f-string formats it. *)
Definition format_int (n : Z) : str :=
  lit (DecimalString.NilZero.string_of_int (Z.to_int n)).

(** [f"real_time_logs_shard_{shard_num}"]. *)
Definition shard_table_name (shard_num : Z) : str :=
  lit "real_time_logs_shard_" ++ format_int shard_num.

Module DetermineShardTable.

(** [(project_hash % 4) + 1]; Python's [%] takes the sign of the divisor,
    as [Z.modulo] does. *)
Definition shard_num_of (project_hash : Z) : Z := project_hash mod 4 + 1.

Definition process `{Runtime} (element : dict) : result (list (str * dict)) :=
  project_hash <- py_hash (dict_get element (lit "project_id") (VStr (lit ""))) ;;
  let shard_num := shard_num_of project_hash in
  let table_name := shard_table_name shard_num in
  Ok [(table_name, element)].

End DetermineShardTable.

(** ** run_pipeline *)

(** [range(a, b)]. *)
Definition range (a b : Z) : list Z :=
  map (fun i => a + Z.of_nat i) (seq 0 (Z.to_nat (b - a))).

Inductive CreateDisposition := CREATE_IF_NEEDED | CREATE_NEVER.
Inductive WriteDisposition := WRITE_APPEND | WRITE_TRUNCATE | WRITE_EMPTY.

(** [bigquery.SchemaField(name, field_type)]. *)
Record SchemaField := {
  field_name : str;
  field_type : str
}.

Definition create_bigquery_schema : list SchemaField :=
  [ {| field_name := lit "timestamp"; field_type := lit "TIMESTAMP" |};
    {| field_name := lit "severity"; field_type := lit "STRING" |};
    {| field_name := lit "message"; field_type := lit "STRING" |};
    {| field_name := lit "resource_type"; field_type := lit "STRING" |};
    {| field_name := lit "project_id"; field_type := lit "STRING" |};
    {| field_name := lit "trace_id"; field_type := lit "STRING" |};
    {| field_name := lit "span_id"; field_type := lit "STRING" |};
    {| field_name := lit "labels"; field_type := lit "JSON" |};
    {| field_name := lit "resource_name"; field_type := lit "STRING" |};
    {| field_name := lit "source_location"; field_type := lit "JSON" |};
    {| field_name := lit "ingestion_time"; field_type := lit "TIMESTAMP" |};
    {| field_name := lit "pipeline_version"; field_type := lit "STRING" |} ].

(** [additional_bq_parameters] of every write (lines 155-163). *)
Definition time_partitioning_field : str := lit "timestamp".
Definition clustering_fields : list str :=
  [lit "severity"; lit "resource_type"; lit "project_id"].

(** [f"{project_id}:{output_dataset}.{table_name}"]. *)
Definition destination (project_id output_dataset table_name : str) : str :=
  project_id ++ lit ":" ++ output_dataset ++ lit "." ++ table_name.

(** The arguments of a [WriteToBigQuery] (lines 150-164). *)
Record BigQueryWrite := {
  table : str;
  schema : list SchemaField;
  create_disposition : CreateDisposition;
  write_disposition : WriteDisposition;
  time_partitioning_type : str;
  time_partitioning : str;
  clustering : list str
}.

Inductive DoFn := ParseLogEntryFn | EnrichLogsFn | DetermineShardTableFn.

(** What [run_pipeline] asks of Beam, call after call: the pipeline with
    its options, each transform it constructs and applies, and, on leaving
    the [with] block, the run. *)
Inductive Call :=
| NewPipeline (pipeline_args : list str) (streaming : bool)
| ReadFromPubSub (subscription : str)
| ParDo (fn : DoFn)
| WindowInto (fixed_windows : Z)
| Filter (table_name : str)
| MapSecond
| WriteToBigQuery (w : BigQueryWrite)
| Run.

(** Beam is not the repository's: what it answers to a call, an exception
    or nothing worth modelling, is a parameter. *)
Class Beam := {
  beam_call : Call -> result unit
}.

(** The arguments [run_pipeline] registers with its parser, all required. *)
Definition known_arguments : list str :=
  [lit "input_subscription"; lit "output_dataset"; lit "project_id"].

(** [argparse]'s [parse_known_args] for a parser whose arguments are all
    required options taking one value: the namespace (each value a [str])
    and the arguments left over, or nothing when the parser exits with a
    usage error. *)
Definition Namespace := list (str * str).

Class ArgParser := {
  parse_known_args : list str -> list str -> option (Namespace * list str)
}.

Fixpoint getattr (ns : Namespace) (name : str) : result str :=
  match ns with
  | [] => Raise AttributeError
  | (k, v) :: ns' => if str_eqb name k then Ok v else getattr ns' name
  end.

(** A computation that asks Beam for things: the calls made so far go in,
    the calls made and the outcome come out.  The first exception ends
    it. *)
Definition Build (A : Type) : Type := list Call -> list Call * result A.

Definition done {A} (r : result A) : Build A := fun log => (log, r).

Definition ask `{Beam} (c : Call) : Build unit :=
  fun log => (log ++ [c], beam_call c).

Definition and_then {A B} (m : Build A) (k : A -> Build B) : Build B :=
  fun log =>
    match m log with
    | (log', Ok a) => k a log'
    | (log', Raise e) => (log', Raise e)
    end.

Notation "x <~ m ;; k" := (and_then m (fun x => k))
  (at level 61, m at next level, right associativity).

Fixpoint for_each {A} (l : list A) (body : A -> Build unit) : Build unit :=
  match l with
  | [] => done (Ok tt)
  | a :: l' => _ <~ body a ;; for_each l' body
  end.

(** The [WriteToBigQuery] of one turn of the loop. *)
Definition bigquery_write (project_id output_dataset table_name : str)
  : BigQueryWrite :=
  {| table := destination project_id output_dataset table_name;
     schema := create_bigquery_schema;
     create_disposition := CREATE_NEVER;
     write_disposition := WRITE_APPEND;
     time_partitioning_type := lit "DAY";
     time_partitioning := time_partitioning_field;
     clustering := clustering_fields |}.

(** [run_pipeline(argv)]: the calls it makes to Beam and how it ends.  A
    usage error leaves through [SystemExit] before any call; in a chain of
    transforms each is constructed, then applied, before the next is
    constructed.  [create_bigquery_schema()] (line 140) only builds its
    list, given the BigQuery client library that Beam's GCP extras
    install; a pipeline left through an exception is not run. *)
Definition run_pipeline `{ArgParser} `{Beam} (argv : list str)
  : list Call * result unit :=
  (parsed <~ done (of_option SystemExit
                     (parse_known_args known_arguments argv)) ;;
   let known_args := fst parsed in
   let pipeline_args := snd parsed in
   _ <~ ask (NewPipeline pipeline_args true) ;;
   input_subscription <~ done (getattr known_args (lit "input_subscription")) ;;
   _ <~ ask (ReadFromPubSub input_subscription) ;;
   _ <~ ask (ParDo ParseLogEntryFn) ;;
   _ <~ ask (ParDo EnrichLogsFn) ;;
   _ <~ ask (WindowInto 60) ;;
   _ <~ ask (ParDo DetermineShardTableFn) ;;
   _ <~ for_each (range 1 5) (fun shard_num =>
     let table_name := shard_table_name shard_num in
     _ <~ ask (Filter (shard_table_name shard_num)) ;;
     _ <~ ask MapSecond ;;
     project_id <~ done (getattr known_args (lit "project_id")) ;;
     output_dataset <~ done (getattr known_args (lit "output_dataset")) ;;
     ask (WriteToBigQuery (bigquery_write project_id output_dataset table_name))) ;;
   ask Run) [].

(** *** The pipeline on the records it is given *)

(** [beam.ParDo(fn)]: [fn.process] on each element, the outputs one after
    the other; an exception of [process] is the transform's. *)
Fixpoint par_do {A B} (process : A -> result (list B)) (elements : list A)
  : result (list B) :=
  match elements with
  | [] => Ok []
  | element :: rest =>
      out <- process element ;;
      outs <- par_do process rest ;;
      Ok (out ++ outs)
  end.

(** ** A runtime to evaluate with

    The codec and the decoder below follow the UTF-8 and JSON grammars as
    CPython's [bytes.decode] and [json.loads] read them; the hash is one
    unseeded string hash.  They serve to run the model on concrete
    messages: the theorems below hold for every runtime, their examples
    are computed with this one. *)
Module Interp.

Local Open Scope N_scope.

(** *** UTF-8 *)

Definition continuation (b : byte) : option N :=
  let n := Byte.to_N b in
  if (128 <=? n) && (n <=? 191) then Some (n - 128) else None.

Definition scalar (lo cp : N) : option N :=
  if (cp <? lo) || ((55296 <=? cp) && (cp <=? 57343)) || (1114111 <? cp)
  then None else Some cp.

Definition prepend (c : option N) (rest : option str) : option str :=
  match c, rest with
  | Some c, Some rest => Some (c :: rest)
  | _, _ => None
  end.

Fixpoint utf8_decode (bs : list byte) : option str :=
  match bs with
  | [] => Some []
  | b0 :: r0 =>
      let n0 := Byte.to_N b0 in
      if n0 <? 128 then prepend (Some n0) (utf8_decode r0)
      else if n0 <? 192 then None
      else if n0 <? 224 then
        match r0 with
        | b1 :: r1 =>
            match continuation b1 with
            | Some c1 => prepend (scalar 128 ((n0 - 192) * 64 + c1)) (utf8_decode r1)
            | None => None
            end
        | _ => None
        end
      else if n0 <? 240 then
        match r0 with
        | b1 :: b2 :: r2 =>
            match continuation b1, continuation b2 with
            | Some c1, Some c2 =>
                prepend (scalar 2048 ((n0 - 224) * 4096 + c1 * 64 + c2))
                        (utf8_decode r2)
            | _, _ => None
            end
        | _ => None
        end
      else if n0 <? 248 then
        match r0 with
        | b1 :: b2 :: b3 :: r3 =>
            match continuation b1, continuation b2, continuation b3 with
            | Some c1, Some c2, Some c3 =>
                prepend (scalar 65536
                           ((n0 - 240) * 262144 + c1 * 4096 + c2 * 64 + c3))
                        (utf8_decode r3)
            | _, _, _ => None
            end
        | _ => None
        end
      else None
  end.

(** *** JSON *)

Definition ch (a : ascii) : N := N_of_ascii a.

Definition quote : N := 34.

Definition is_ws (c : N) : bool :=
  (c =? 32) || (c =? 9) || (c =? 10) || (c =? 13).

Fixpoint skip_ws (s : str) : str :=
  match s with
  | c :: r => if is_ws c then skip_ws r else s
  | [] => []
  end.

Fixpoint strip_prefix (p s : str) : option str :=
  match p, s with
  | [], _ => Some s
  | x :: p', y :: s' => if x =? y then strip_prefix p' s' else None
  | _ :: _, [] => None
  end.

Definition is_digit (c : N) : bool := (48 <=? c) && (c <=? 57).

Fixpoint span_digits (s : str) : str * str :=
  match s with
  | c :: r => if is_digit c then let (d, r') := span_digits r in (c :: d, r')
              else ([], s)
  | [] => ([], [])
  end.

Definition digits_value (d : str) : Z :=
  fold_left (fun acc c => (acc * 10 + Z.of_N (c - 48))%Z) d 0%Z.

(** A number: an optional minus sign, then [0] or digits that do not start
    with [0], then an optional fraction (a dot and digits) and an optional
    exponent ([e] or [E], an optional sign, digits).  An [int] without
    fraction and exponent, a [float] with one. *)
Definition scan_number (s : str) : option (value * str) :=
  let (neg, s1) := match s with
                   | c :: r => if c =? ch "-" then (true, r) else (false, s)
                   | [] => (false, s)
                   end in
  let int_part :=
    match s1 with
    | c :: r => if c =? ch "0" then Some ([c], r)
                else if is_digit c then Some (span_digits s1)
                else None
    | [] => None
    end in
  match int_part with
  | None => None
  | Some (ds, s2) =>
      let (frac, s3) :=
        match s2 with
        | c :: r => if c =? ch "." then
                      match span_digits r with
                      | ([], _) => ([], s2)
                      | (fd, r') => (c :: fd, r')
                      end
                    else ([], s2)
        | [] => ([], s2)
        end in
      let (exp, s4) :=
        match s3 with
        | c :: r =>
            if (c =? ch "e") || (c =? ch "E") then
              let (sign, r1) :=
                match r with
                | c' :: r' => if (c' =? ch "+") || (c' =? ch "-")
                              then ([c'], r') else ([], r)
                | [] => ([], r)
                end in
              match span_digits r1 with
              | ([], _) => ([], s3)
              | (ed, r') => (c :: sign ++ ed, r')
              end
            else ([], s3)
        | [] => ([], s3)
        end in
      match frac, exp with
      | [], [] => Some (VInt (if neg then - digits_value ds else digits_value ds)%Z, s4)
      | _, _ => Some (VFloat ((if neg then [ch "-"] else []) ++ ds ++ frac ++ exp), s4)
      end
  end.

Definition hex_digit (c : N) : option N :=
  if is_digit c then Some (c - 48)
  else if (97 <=? c) && (c <=? 102) then Some (c - 87)
  else if (65 <=? c) && (c <=? 70) then Some (c - 55)
  else None.

Definition hex4 (a b c d : N) : option N :=
  match hex_digit a, hex_digit b, hex_digit c, hex_digit d with
  | Some a, Some b, Some c, Some d => Some (a * 4096 + b * 256 + c * 16 + d)
  | _, _, _, _ => None
  end.

Definition escape (e : N) : option N :=
  if e =? quote then Some (quote)
  else if e =? ch "\" then Some (ch "\")
  else if e =? ch "/" then Some (ch "/")
  else if e =? ch "b" then Some 8
  else if e =? ch "f" then Some 12
  else if e =? ch "n" then Some 10
  else if e =? ch "r" then Some 13
  else if e =? ch "t" then Some 9
  else None.

(** The characters of a string up to its closing quote, and what follows
    it.  A [\u] escape of a high surrogate joins the low surrogate escape
    after it. *)
Fixpoint scan_string (s : str) : option (str * str) :=
  let cons_to c r := match r with
                     | Some (cs, rest) => Some (c :: cs, rest)
                     | None => None
                     end in
  match s with
  | [] => None
  | c :: r =>
      if c =? quote then Some ([], r)
      else if c =? ch "\" then
        match r with
        | [] => None
        | e :: r1 =>
            if e =? ch "u" then
              match r1 with
              | h1 :: h2 :: h3 :: h4 :: r2 =>
                  match hex4 h1 h2 h3 h4 with
                  | None => None
                  | Some u =>
                      let single := cons_to u (scan_string r2) in
                      if (55296 <=? u) && (u <=? 56319) then
                        match r2 with
                        | b :: v :: l1 :: l2 :: l3 :: l4 :: r3 =>
                            if (b =? ch "\") && (v =? ch "u") then
                              match hex4 l1 l2 l3 l4 with
                              | Some u2 =>
                                  if (56320 <=? u2) && (u2 <=? 57343) then
                                    cons_to (65536 + (u - 55296) * 1024 + (u2 - 56320))
                                            (scan_string r3)
                                  else single
                              | None => single
                              end
                            else single
                        | _ => single
                        end
                      else single
                  end
              | _ => None
              end
            else
              match escape e with
              | Some c' => cons_to c' (scan_string r1)
              | None => None
              end
        end
      else if c <? 32 then None
      else cons_to c (scan_string r)
  end.

Definition scan_constant (s : str) : option (value * str) :=
  match strip_prefix (lit "null") s with
  | Some r => Some (VNone, r)
  | None =>
  match strip_prefix (lit "true") s with
  | Some r => Some (VBool true, r)
  | None =>
  match strip_prefix (lit "false") s with
  | Some r => Some (VBool false, r)
  | None =>
  match strip_prefix (lit "NaN") s with
  | Some r => Some (VFloat (lit "NaN"), r)
  | None =>
  match strip_prefix (lit "Infinity") s with
  | Some r => Some (VFloat (lit "Infinity"), r)
  | None =>
  match strip_prefix (lit "-Infinity") s with
  | Some r => Some (VFloat (lit "-Infinity"), r)
  | None => scan_number s
  end end end end end end.

(** One value at the head of [s].  [scan_pairs] stands after [{] or a
    comma of an object, [scan_items] at an item of an array; a later pair
    with a key already read replaces its value. *)
Fixpoint scan_value (fuel : nat) (s : str) : option (value * str) :=
  match fuel with
  | O => None
  | S fuel =>
      match s with
      | [] => None
      | c :: r =>
          if c =? quote then
            match scan_string r with
            | Some (cs, rest) => Some (VStr cs, rest)
            | None => None
            end
          else if c =? ch "{" then
            match skip_ws r with
            | c' :: r' => if c' =? ch "}" then Some (VDict [], r')
                          else scan_pairs fuel (c' :: r') []
            | [] => None
            end
          else if c =? ch "[" then
            match skip_ws r with
            | c' :: r' => if c' =? ch "]" then Some (VList [], r')
                          else scan_items fuel (c' :: r') []
            | [] => None
            end
          else scan_constant s
      end
  end
with scan_pairs (fuel : nat) (s : str) (acc : dict) : option (value * str) :=
  match fuel with
  | O => None
  | S fuel =>
      match s with
      | q :: r =>
          if q =? quote then
            match scan_string r with
            | Some (key, r1) =>
                match skip_ws r1 with
                | colon :: r2 =>
                    if colon =? ch ":" then
                      match scan_value fuel (skip_ws r2) with
                      | Some (v, r3) =>
                          let acc := dict_set acc key v in
                          match skip_ws r3 with
                          | c :: r4 =>
                              if c =? ch "}" then Some (VDict acc, r4)
                              else if c =? ch "," then scan_pairs fuel (skip_ws r4) acc
                              else None
                          | [] => None
                          end
                      | None => None
                      end
                    else None
                | [] => None
                end
            | None => None
            end
          else None
      | [] => None
      end
  end
with scan_items (fuel : nat) (s : str) (acc : list value) : option (value * str) :=
  match fuel with
  | O => None
  | S fuel =>
      match scan_value fuel s with
      | Some (v, r1) =>
          match skip_ws r1 with
          | c :: r2 =>
              if c =? ch "]" then Some (VList (acc ++ [v]), r2)
              else if c =? ch "," then scan_items fuel (skip_ws r2) (acc ++ [v])
              else None
          | [] => None
          end
      | None => None
      end
  end.

(** [json.loads(s)]: one value, white space around it, nothing else.  Every
    call of the scanner reads a character, so twice the length bounds their
    number. *)
Definition loads (s : str) : option value :=
  match scan_value (2 * List.length s + 2) (skip_ws s) with
  | Some (v, rest) => match skip_ws rest with
                      | [] => Some v
                      | _ :: _ => None
                      end
  | None => None
  end.

(** *** hash *)

Definition wrap64 (z : Z) : Z := ((z + 2 ^ 63) mod 2 ^ 64 - 2 ^ 63)%Z.

Definition hash_chars (s : list N) : Z :=
  match s with
  | [] => 0%Z
  | c :: _ =>
      let x := fold_left (fun x c => wrap64 (Z.lxor (1000003 * x) (Z.of_N c)))
                         s (Z.shiftl (Z.of_N c) 7) in
      Z.lxor x (Z.of_nat (List.length s))
  end.

Definition hash_value (v : value) : Z :=
  match v with
  | VNone => 1234567%Z
  | VBool b => if b then 1%Z else 0%Z
  | VInt z => (Z.sgn z * (Z.abs z mod (2 ^ 61 - 1)))%Z
  | VFloat l => hash_chars l
  | VStr s => hash_chars s
  | VBytes b => hash_chars (map Byte.to_N b)
  | VList _ | VDict _ => 0%Z
  end.

#[export] Instance runtime : Runtime := {
  bytes_decode := utf8_decode;
  json_loads := loads;
  py_hash_value := hash_value;
  slice_hashable := true
}.

(** *** Command line *)

Fixpoint split_at_equals (s : str) : str * option str :=
  match s with
  | [] => ([], None)
  | c :: r => if c =? ch "=" then ([], Some r)
              else let (name, v) := split_at_equals r in (c :: name, v)
  end.

(** [--name] or [--name=value]. *)
Definition option_token (tok : str) : option (str * option str) :=
  match strip_prefix (lit "--") tok with
  | Some rest => Some (split_at_equals rest)
  | None => None
  end.

Definition starts_with_dash (tok : str) : bool :=
  match tok with
  | c :: _ => c =? ch "-"
  | [] => false
  end.

Fixpoint ns_set (ns : Namespace) (name v : str) : Namespace :=
  match ns with
  | [] => [(name, v)]
  | (k, v') :: ns' =>
      if str_eqb name k then (k, v) :: ns' else (k, v') :: ns_set ns' name v
  end.

(** Options are written in full, as [--name value] or [--name=value]; a
    later value replaces an earlier one; what is not a known option is left
    over. *)
Fixpoint scan_args (known argv : list str) (ns : Namespace) (extras : list str)
  : option (Namespace * list str) :=
  match argv with
  | [] => Some (ns, extras)
  | tok :: rest =>
      match option_token tok with
      | Some (name, inline) =>
          if existsb (str_eqb name) known then
            match inline with
            | Some v => scan_args known rest (ns_set ns name v) extras
            | None =>
                match rest with
                | v :: rest' =>
                    if starts_with_dash v then None
                    else scan_args known rest' (ns_set ns name v) extras
                | [] => None
                end
            end
          else scan_args known rest ns (extras ++ [tok])
      | None => scan_args known rest ns (extras ++ [tok])
      end
  end.

Definition has_attr (ns : Namespace) (name : str) : bool :=
  existsb (fun kv => str_eqb name (fst kv)) ns.

#[export] Instance arg_parser : ArgParser := {
  parse_known_args known argv :=
    match scan_args known argv [] [] with
    | Some (ns, extras) =>
        if forallb (has_attr ns) known then Some (ns, extras) else None
    | None => None
    end
}.

(** *** Beam *)

Fixpoint until_slash (s : str) : str * str :=
  match s with
  | [] => ([], [])
  | c :: r => if c =? ch "/" then ([], s)
              else let (a, b) := until_slash r in (c :: a, b)
  end.

(** [projects/<project>/subscriptions/<name>], as [ReadFromPubSub] checks
    its [subscription]. *)
Definition subscription_path (s : str) : bool :=
  match strip_prefix (lit "projects/") s with
  | Some r =>
      match until_slash r with
      | (_ :: _, r') =>
          match strip_prefix (lit "/subscriptions/") r' with
          | Some (_ :: _) => true
          | _ => false
          end
      | _ => false
      end
  | None => false
  end.

(** Beam with its default, direct runner.  [ReadFromPubSub] refuses an
    ill-formed subscription with [ValueError].  [WriteToBigQuery] takes its
    schema as a string, a dict or a [TableSchema] and refuses anything
    else, so the list of [SchemaField] it is given here, with
    [TypeError]. *)
#[export] Instance beam : Beam := {
  beam_call c :=
    match c with
    | ReadFromPubSub s =>
        if subscription_path s then Ok tt else Raise ValueError
    | WriteToBigQuery _ => Raise TypeError
    | _ => Ok tt
    end
}.

(** *** Another process *)

(** CPython 3.11 and later hash a [str] and [bytes] with SipHash-1-3
    ([siphash13] and [_Py_HashBytes] of Python/pyhash.c) under the key of
    the process: its first sixteen bytes of secret, which are zero when
    PYTHONHASHSEED is 0 and drawn from a linear congruential generator
    started at the seed otherwise ([lcg_urandom] of
    Python/bootstrap_hash.c).  A [str] is hashed as the bytes it is stored
    in: one, two or four to a character, little end first, by the width of
    its largest character. *)
Definition u64 (z : Z) : Z := (z mod 2 ^ 64)%Z.

Definition rotate (x b : Z) : Z :=
  u64 (Z.lor (Z.shiftl x b) (Z.shiftr x (64 - b))).

Definition half_round (a b c d s t : Z) : Z * Z * Z * Z :=
  let a := u64 (a + b) in
  let c := u64 (c + d) in
  let b := Z.lxor (rotate b s) a in
  let d := Z.lxor (rotate d t) c in
  let a := rotate a 32 in
  (a, b, c, d).

Definition single_round (v : Z * Z * Z * Z) : Z * Z * Z * Z :=
  let '(v0, v1, v2, v3) := v in
  let '(v0, v1, v2, v3) := half_round v0 v1 v2 v3 13 16 in
  let '(v2, v1, v0, v3) := half_round v2 v1 v0 v3 17 21 in
  (v0, v1, v2, v3).

Definition le64 (bytes : list Z) : Z :=
  fold_right (fun b acc => (b + 256 * acc)%Z) 0%Z bytes.

(** The blocks of eight bytes, and the bytes left over. *)
Fixpoint sip_blocks (src : list Z) (v : Z * Z * Z * Z)
  : list Z * (Z * Z * Z * Z) :=
  match src with
  | b0 :: b1 :: b2 :: b3 :: b4 :: b5 :: b6 :: b7 :: rest =>
      let mi := le64 [b0; b1; b2; b3; b4; b5; b6; b7] in
      let '(v0, v1, v2, v3) := v in
      let '(v0, v1, v2, v3) := single_round (v0, v1, v2, Z.lxor v3 mi) in
      sip_blocks rest (Z.lxor v0 mi, v1, v2, v3)
  | tail => (tail, v)
  end.

Definition siphash13 (k0 k1 : Z) (src : list Z) : Z :=
  let b := u64 (Z.shiftl (Z.of_nat (List.length src)) 56) in
  let '(tail, (v0, v1, v2, v3)) :=
    sip_blocks src (Z.lxor k0 0x736f6d6570736575%Z,
                    Z.lxor k1 0x646f72616e646f6d%Z,
                    Z.lxor k0 0x6c7967656e657261%Z,
                    Z.lxor k1 0x7465646279746573%Z) in
  let b := Z.lor b (le64 tail) in
  let '(v0, v1, v2, v3) := single_round (v0, v1, v2, Z.lxor v3 b) in
  let '(v0, v1, v2, v3) :=
    single_round (single_round (single_round
      (Z.lxor v0 b, v1, Z.lxor v2 255%Z, v3))) in
  Z.lxor (Z.lxor v0 v1) (Z.lxor v2 v3).

Fixpoint lcg_urandom (x : Z) (size : nat) : list Z :=
  match size with
  | O => []
  | S size' =>
      let x := ((x * 214013 + 2531011) mod 2 ^ 32)%Z in
      (Z.shiftr x 16 mod 256)%Z :: lcg_urandom x size'
  end.

Definition hash_secret (seed : Z) : list Z :=
  if (seed =? 0)%Z then repeat 0%Z 24 else lcg_urandom seed 24.

Definition unicode_kind (s : str) : nat :=
  let maxchar := fold_right N.max 0 s in
  if maxchar <? 256 then 1%nat
  else if maxchar <? 65536 then 2%nat else 4%nat.

Definition unicode_data (s : str) : list Z :=
  flat_map (fun c =>
              map (fun i => (Z.shiftr (Z.of_N c) (8 * Z.of_nat i) mod 256)%Z)
                  (seq 0 (unicode_kind s))) s.

(** [_Py_HashBytes]: nothing hashes to 0, and -1 is no hash. *)
Definition hash_bytes (seed : Z) (src : list Z) : Z :=
  match src with
  | [] => 0%Z
  | _ =>
      let secret := hash_secret seed in
      let x := wrap64 (siphash13 (le64 (firstn 8 secret))
                                 (le64 (firstn 8 (skipn 8 secret))) src) in
      if (x =? -1)%Z then (-2)%Z else x
  end.

(** [hash] in a process started with PYTHONHASHSEED=[seed]. *)
Definition hash_value_seeded (seed : Z) (v : value) : Z :=
  match v with
  | VStr s => hash_bytes seed (unicode_data s)
  | VBytes b => hash_bytes seed (map (fun x => Z.of_N (Byte.to_N x)) b)
  | _ => hash_value v
  end.

Definition runtime_seeded (seed : Z) : Runtime := {|
  bytes_decode := utf8_decode;
  json_loads := loads;
  py_hash_value := hash_value_seeded seed;
  slice_hashable := true
|}.

(** A message payload from its text, in which ['] stands for the double
    quote. *)
Definition payload (text : string) : value :=
  VBytes (map (fun a => if Ascii.eqb a "'" then x22 else byte_of_ascii a)
              (list_ascii_of_string text)).

End Interp.

(** ** The rest of the pipeline file *)

(** [beam.ParDo(ParseLogEntry())] on the messages of a bundle: [process] on
    each message in turn, the counters carried from one to the next. *)
Fixpoint parse_entries `{Runtime} (elements : list value) (m : Metrics)
  : list dict * Metrics :=
  match elements with
  | [] => ([], m)
  | element :: rest =>
      let (out, m1) := ParseLogEntry.process element m in
      let (outs, m2) := parse_entries rest m1 in
      (out ++ outs, m2)
  end.

(** Lines 131-137 on one message that arrives when the clock reads [now]:
    parse, enrich, route ([WindowInto] only tags the record with its
    window).  An exception of [EnrichLogs] or [DetermineShardTable] is the
    pipeline's. *)
Definition processed_logs `{Runtime} (now : str) (element : value) (m : Metrics)
  : result (list (str * dict)) * Metrics :=
  let (parsed, m1) := ParseLogEntry.process element m in
  (enriched <- par_do (EnrichLogs.process now) parsed ;;
   par_do DetermineShardTable.process enriched,
   m1).

(** ** The sample application (sample-apps/app.py) *)

Module LogGenerator.

(** [f"{x}"] of a value that is a [str] or [None]. *)
Definition format_opt (x : option str) : str :=
  match x with
  | Some s => s
  | None => lit "None"
  end.

Definition value_of_opt (x : option str) : value :=
  match x with
  | Some s => VStr s
  | None => VNone
  end.

(** [message or default]: [None] and the empty string are false. *)
Definition or_default (message : option str) (default : str) : str :=
  match message with
  | Some (c :: s) => c :: s
  | Some [] | None => default
  end.

(** [generate_application_log(level, message)].  [PROJECT_ID] is the
    module's constant, [None] when the environment does not set it; [now] is
    what [datetime.utcnow().isoformat()] returns, [trace_id] and [span_id]
    what the two random generators return. *)
Definition generate_application_log (PROJECT_ID : option str)
  (now trace_id span_id : str) (level : str) (message : option str) : dict :=
  [ (lit "timestamp", VStr (now ++ lit "Z"));
    (lit "severity", VStr level);
    (lit "textPayload",
     VStr (or_default message
             (lit "Sample " ++ level ++ lit " message from application")));
    (lit "resource",
     VDict [ (lit "type", VStr (lit "cloud_run_revision"));
             (lit "labels",
              VDict [ (lit "project_id", value_of_opt PROJECT_ID);
                      (lit "service_name", VStr (lit "sample-app"));
                      (lit "revision_name", VStr (lit "sample-app-v1")) ]) ]);
    (lit "labels",
     VDict [ (lit "component", VStr (lit "sample-application"));
             (lit "version", VStr (lit "1.0.0")) ]);
    (lit "trace",
     VStr (lit "projects/" ++ format_opt PROJECT_ID ++ lit "/traces/" ++ trace_id));
    (lit "spanId", VStr span_id) ].

End LogGenerator.

(** [s.lower()] on a [str] of ASCII characters. *)
Definition ascii_lower (s : str) : str :=
  map (fun c => if ((65 <=? c) && (c <=? 90))%N then (c + 32)%N else c) s.

(** Lines 105-113 of [generate_logs]: the level and the message of the log
    of index [i]; [pick] is what [random.choice(['INFO', 'DEBUG'])] returns
    when it is called. *)
Definition level_and_message (i : Z) (pick : str) : str * str :=
  if i mod 10 =? 0 then
    (lit "ERROR", lit "Sample error message " ++ format_int i)
  else if i mod 5 =? 0 then
    (lit "WARNING", lit "Sample warning message " ++ format_int i)
  else
    (pick, lit "Sample " ++ ascii_lower pick ++ lit " message " ++ format_int i).

(** The levels and messages of the loop of [generate_logs], index after
    index; [picks i] is what [random.choice] returns at index [i] (it is
    called only where the index is no multiple of 5). *)
Definition generate_logs_plan (count : Z) (picks : Z -> str) : list (str * str) :=
  map (fun i => level_and_message i (picks i)) (range 0 count).

(** ** Vocabulary of the specification *)

(** A payload the parser cannot deserialize: bytes that are not UTF-8, or
    text that is not a JSON document. *)
Definition malformed `{Runtime} (element : value) : Prop :=
  match element with
  | VBytes b => match bytes_decode b with
                | Some s => json_loads s = None
                | None => True
                end
  | VStr s => json_loads s = None
  | _ => False
  end.

(** A payload that deserializes to the document [doc]: bytes that decode
    to a text that [json.loads] reads as [doc], or such a text.  An element
    that is neither is the document itself. *)
Definition deserializes_to `{Runtime} (element doc : value) : Prop :=
  match element with
  | VBytes b => exists s, bytes_decode b = Some s /\ json_loads s = Some doc
  | VStr s => json_loads s = Some doc
  | _ => element = doc
  end.

Definition is_mapping (v : value) : bool :=
  match v with
  | VDict _ => true
  | _ => false
  end.

(** The entry [k] of a value found in a document, when that value is a
    mapping and has the entry. *)
Definition child (o : option value) (k : str) : option value :=
  match o with
  | Some (VDict d) => lookup k d
  | _ => None
  end.

(** [out] is the source field when the document has it, [default]
    otherwise. *)
Definition defaults_to (source : option value) (default : value)
  (out : option value) : Prop :=
  match source with
  | Some v => out = Some v
  | None => out = Some default
  end.

(** The nested structures of a document have the expected shape: [resource]
    and [resource.labels], where present, are mappings. *)
Definition well_shaped (d : dict) : bool :=
  match lookup (lit "resource") d with
  | None => true
  | Some (VDict r) =>
      match lookup (lit "labels") r with
      | None => true
      | Some l => is_mapping l
      end
  | Some _ => false
  end.

(** The record after the two assignments of lines 68-69. *)
Definition stamped (now : str) (element : dict) : dict :=
  dict_set (dict_set element (lit "ingestion_time") (VStr now))
           (lit "pipeline_version") (VStr (lit "1.0.0")).

(** The marker the specification names. *)
Definition truncation_marker : str := lit "...[TRUNCATED]".

(** Enriching again leaves the message of [d] as it is: it is short, or it
    already ends in the marker after its first 1000 characters. *)
Definition message_settled (d : dict) : Prop :=
  (exists n, py_len (dict_get d (lit "message") (VStr (lit ""))) = Ok n /\
             n <= 1000) \/
  (exists t, lookup (lit "message") d = Some (VStr t) /\
             firstn 1000 t ++ truncation_marker = t).

(** The shard id of a record: the number [DetermineShardTable] derives
    from the hash of its [project_id]. *)
Definition shard_of `{Runtime} (element : dict) : Z :=
  DetermineShardTable.shard_num_of
    (py_hash_value (dict_get element (lit "project_id") (VStr (lit "")))).

(** The calls of a run. *)
Definition calls {A} (run : list Call * result A) : list Call := fst run.

(** Every call [run_pipeline] makes is one of these. *)
Definition planned (known_args : Namespace) (pipeline_args : list str)
  (c : Call) : Prop :=
  c = NewPipeline pipeline_args true \/
  (exists sub, getattr known_args (lit "input_subscription") = Ok sub /\
               c = ReadFromPubSub sub) \/
  c = ParDo ParseLogEntryFn \/
  c = ParDo EnrichLogsFn \/
  c = WindowInto 60 \/
  c = ParDo DetermineShardTableFn \/
  (exists n, In n [1; 2; 3; 4] /\ c = Filter (shard_table_name n)) \/
  c = MapSecond \/
  (exists n project_id output_dataset,
      In n [1; 2; 3; 4] /\
      getattr known_args (lit "project_id") = Ok project_id /\
      getattr known_args (lit "output_dataset") = Ok output_dataset /\
      c = WriteToBigQuery
            (bigquery_write project_id output_dataset (shard_table_name n))) \/
  c = Run.

(** The messages on which [enrich] returns: a string, or a sequence or a
    mapping of at most 1000 entries. *)
Definition enrichable (message : value) : bool :=
  match message with
  | VStr _ => true
  | VBytes b => Z.of_nat (List.length b) <=? 1000
  | VList l => Z.of_nat (List.length l) <=? 1000
  | VDict d => Z.of_nat (List.length d) <=? 1000
  | VNone | VBool _ | VInt _ | VFloat _ => false
  end.

(** The exception [enrich] raises on a message that is not enrichable:
    [TypeError], but for a mapping of more than 1000 entries under Python
    3.12 or later, where the slice is looked up as a key: [KeyError]. *)
Definition enrich_error `{Runtime} (message : value) : exn :=
  match message with
  | VDict _ => if slice_hashable then KeyError else TypeError
  | _ => TypeError
  end.

(** The values [hash] accepts. *)
Definition hashable (v : value) : bool :=
  match v with
  | VList _ | VDict _ => false
  | _ => true
  end.

(** The value of a field read with a default. *)
Definition source_or (source : option value) (default : value) : value :=
  match source with
  | Some v => v
  | None => default
  end.

(** The keys of a dict after [d[k] = v]. *)
Definition keys_with (keys : list str) (k : str) : list str :=
  if existsb (str_eqb k) keys then keys else keys ++ [k].

(** The number of logs of a level in a plan of [generate_logs]. *)
Definition count_level (level : str) (plan : list (str * str)) : Z :=
  Z.of_nat (List.length (filter (fun lm => str_eqb (fst lm) level) plan)).

(** Counters at process start. *)
Definition fresh : Metrics :=
  {| parse_errors := 0; valid_logs := 0; logged := [] |}.

#[local] Existing Instance Interp.runtime.
#[local] Existing Instance Interp.arg_parser.
#[local] Existing Instance Interp.beam.

(** * Properties *)

(** ** Strings and dictionaries *)

Lemma lit_inj (a b : string) : lit a = lit b -> a = b.
Proof.
  unfold lit. intros E.
  apply (f_equal (map ascii_of_N)) in E.
  rewrite !map_map in E.
  rewrite (map_ext _ (fun x => x)) in E
    by (intros; apply ascii_N_embedding).
  rewrite (map_ext (fun x => ascii_of_N (N_of_ascii x)) (fun x => x)) in E
    by (intros; apply ascii_N_embedding).
  rewrite !map_id in E.
  apply (f_equal string_of_list_ascii) in E.
  rewrite !string_of_list_ascii_of_string in E. exact E.
Qed.

Lemma to_int_isi (n : Z) :
  NilZero.int_of_string (NilZero.string_of_int (Z.to_int n)) = Some (Z.to_int n).
Proof.
  apply NilZero.isi; destruct n; simpl; try discriminate;
    intros E; injection E; apply Unsigned.to_uint_nonnil.
Qed.

(** Two integers written alike are the same integer. *)
Lemma format_int_inj (n k : Z) : format_int n = format_int k -> n = k.
Proof.
  unfold format_int. intros P. apply lit_inj in P.
  apply (f_equal NilZero.int_of_string) in P.
  rewrite !to_int_isi in P.
  injection P as P. apply DecimalZ.to_int_inj; exact P.
Qed.

Lemma str_eqb_eq (a b : str) : str_eqb a b = true <-> a = b.
Proof.
  revert b; induction a as [|x a IH]; intros [|y b]; simpl;
    try (split; (reflexivity || discriminate)).
  rewrite andb_true_iff, N.eqb_eq, IH.
  split; [intros [-> ->]; reflexivity | intros E; inversion E; auto].
Qed.

Lemma str_eqb_refl (a : str) : str_eqb a a = true.
Proof. apply str_eqb_eq; reflexivity. Qed.

Lemma str_eqb_app (p a b : str) : str_eqb (p ++ a) (p ++ b) = str_eqb a b.
Proof.
  induction p as [|x p IH]; simpl; [reflexivity|].
  rewrite N.eqb_refl; exact IH.
Qed.

Lemma lookup_dict_set_same (d : dict) (k : str) (v : value) :
  lookup k (dict_set d k v) = Some v.
Proof.
  induction d as [|[k' v'] d IH]; simpl.
  - rewrite str_eqb_refl; reflexivity.
  - destruct (str_eqb k k') eqn:E; simpl; rewrite E; [reflexivity | exact IH].
Qed.

Lemma lookup_dict_set_other (d : dict) (k k' : str) (v : value) :
  str_eqb k k' = false -> lookup k (dict_set d k' v) = lookup k d.
Proof.
  intros Hk; induction d as [|[k0 v0] d IH]; simpl.
  - rewrite Hk; reflexivity.
  - destruct (str_eqb k' k0) eqn:E; simpl.
    + destruct (str_eqb k k0) eqn:E0; [|reflexivity].
      apply str_eqb_eq in E, E0; subst.
      rewrite str_eqb_refl in Hk; discriminate.
    + destruct (str_eqb k k0); [reflexivity | exact IH].
Qed.

Lemma dict_set_same_value (d : dict) (k : str) (v : value) :
  lookup k d = Some v -> dict_set d k v = d.
Proof.
  induction d as [|[k' v'] d IH]; simpl; [discriminate|].
  destruct (str_eqb k k'); intros E.
  - inversion E; reflexivity.
  - rewrite (IH E); reflexivity.
Qed.

(** ** ParseLogEntry *)

Lemma load_malformed `{Runtime} (element : value) :
  malformed element -> exists e, load_log_data element = Raise e.
Proof.
  unfold malformed, load_log_data.
  destruct element; try contradiction.
  - intros E; exists JSONDecodeError. cbn. rewrite E. reflexivity.
  - destruct (bytes_decode b) as [s|].
    + intros E; exists JSONDecodeError. cbn. rewrite E. reflexivity.
    + intros _; exists UnicodeDecodeError. reflexivity.
Qed.

Lemma load_deserialized `{Runtime} (element doc : value) :
  deserializes_to element doc -> load_log_data element = Ok doc.
Proof.
  unfold deserializes_to, load_log_data.
  destruct element; try (intros <-; reflexivity).
  - intros E. cbn. rewrite E. reflexivity.
  - intros (s & Eb & Ej). rewrite Eb. cbn. rewrite Ej. reflexivity.
Qed.

Lemma extract_fields_not_mapping (doc : value) :
  is_mapping doc = false -> extract_fields doc = Raise AttributeError.
Proof. destruct doc; intros E; try reflexivity; discriminate. Qed.

(** On a well-shaped document every field is read with its default. *)
Lemma extract_fields_well_shaped (d : dict) :
  well_shaped d = true ->
  exists r l,
    dict_get d (lit "resource") (VDict []) = VDict r /\
    dict_get r (lit "labels") (VDict []) = VDict l /\
    extract_fields (VDict d) =
    Ok [ (lit "timestamp", dict_get d (lit "timestamp") VNone);
         (lit "severity", dict_get d (lit "severity") (VStr (lit "INFO")));
         (lit "message",
          dict_get d (lit "textPayload")
                   (dict_get d (lit "message") (VStr (lit ""))));
         (lit "resource_type", dict_get r (lit "type") (VStr (lit "unknown")));
         (lit "project_id", dict_get l (lit "project_id") (VStr (lit "unknown")));
         (lit "trace_id", dict_get d (lit "trace") VNone);
         (lit "span_id", dict_get d (lit "spanId") VNone);
         (lit "labels", dict_get d (lit "labels") (VDict []));
         (lit "resource_name", dict_get l (lit "container_name") (VStr (lit "")));
         (lit "source_location", dict_get d (lit "sourceLocation") (VDict [])) ].
Proof.
  unfold well_shaped. intros W.
  assert (exists r, dict_get d (lit "resource") (VDict []) = VDict r /\
          exists l, dict_get r (lit "labels") (VDict []) = VDict l)
    as (r & Er & l & El).
  { unfold dict_get at 1.
    destruct (lookup (lit "resource") d) as [[| | | | | |?|r]|];
      try discriminate.
    - exists r; split; [reflexivity|]. unfold dict_get.
      destruct (lookup (lit "labels") r) as [[| | | | | |?|l]|];
        try discriminate; eauto.
    - exists []; split; [reflexivity|]. exists []; reflexivity. }
  exists r, l. split; [exact Er|]. split; [exact El|].
  unfold extract_fields. cbn [py_get bind]. rewrite Er. cbn [py_get bind].
  rewrite El. reflexivity.
Qed.

(** On a document that is not well shaped, reading through the wrong value
    raises. *)
Lemma extract_fields_ill_shaped (d : dict) :
  well_shaped d = false -> extract_fields (VDict d) = Raise AttributeError.
Proof.
  unfold well_shaped, extract_fields. intros W. cbn [py_get bind].
  unfold dict_get.
  destruct (lookup (lit "resource") d) as [[| | | | | |?|r]|];
    try discriminate; try reflexivity.
  cbn [py_get bind]. unfold dict_get.
  destruct (lookup (lit "labels") r) as [[| | | | | |?|l]|];
    try discriminate; reflexivity.
Qed.

Lemma defaults_to_dict_get (d : dict) (k : str) (default : value) :
  defaults_to (lookup k d) default (Some (dict_get d k default)).
Proof. unfold defaults_to, dict_get. destruct (lookup k d); reflexivity. Qed.

Lemma defaults_to_child (d r : dict) (k k' : str) (default : value) :
  dict_get d k (VDict []) = VDict r ->
  defaults_to (child (lookup k d) k') default (Some (dict_get r k' default)).
Proof.
  unfold dict_get at 1. destruct (lookup k d) as [v|]; intros E.
  - subst v. apply defaults_to_dict_get.
  - inversion E; subst. reflexivity.
Qed.

Lemma child_dict_get (d r : dict) (k k' : str) :
  dict_get d k (VDict []) = VDict r -> child (lookup k d) k' = lookup k' r.
Proof.
  unfold dict_get. destruct (lookup k d) as [v|]; intros E.
  - subst v. reflexivity.
  - inversion E; subst. reflexivity.
Qed.

Lemma process_deserialized `{Runtime} (element doc : value) (m : Metrics) :
  deserializes_to element doc ->
  ParseLogEntry.process element m =
  match extract_fields doc with
  | Ok processed_log => ([processed_log], inc_valid_logs m)
  | Raise e => ([], inc_parse_errors e m)
  end.
Proof.
  intros D. unfold ParseLogEntry.process.
  rewrite (load_deserialized _ _ D). reflexivity.
Qed.

(** C1 (as amended): for every input that parses as a JSON object whose
    [resource] and [resource.labels], where present, are objects, parse
    succeeds (one record, [valid_logs] incremented) and every output field
    is its source field when the document has it and the documented default
    otherwise: severity "INFO"; message from textPayload, else from
    message, else the empty string; resource_type "unknown"; project_id,
    read from resource.labels, "unknown"; labels the empty mapping;
    timestamp, trace_id and span_id None. *)
Theorem parse_fills_defaults `{Runtime} (element : value) (d : dict) (m : Metrics) :
  deserializes_to element (VDict d) ->
  well_shaped d = true ->
  exists processed_log,
    ParseLogEntry.process element m = ([processed_log], inc_valid_logs m) /\
    defaults_to (lookup (lit "severity") d) (VStr (lit "INFO"))
                (lookup (lit "severity") processed_log) /\
    match lookup (lit "textPayload") d, lookup (lit "message") d with
    | Some v, _ => lookup (lit "message") processed_log = Some v
    | None, Some v => lookup (lit "message") processed_log = Some v
    | None, None => lookup (lit "message") processed_log = Some (VStr (lit ""))
    end /\
    defaults_to (child (lookup (lit "resource") d) (lit "type"))
                (VStr (lit "unknown"))
                (lookup (lit "resource_type") processed_log) /\
    defaults_to (child (child (lookup (lit "resource") d) (lit "labels"))
                       (lit "project_id"))
                (VStr (lit "unknown"))
                (lookup (lit "project_id") processed_log) /\
    defaults_to (lookup (lit "labels") d) (VDict [])
                (lookup (lit "labels") processed_log) /\
    defaults_to (lookup (lit "timestamp") d) VNone
                (lookup (lit "timestamp") processed_log) /\
    defaults_to (lookup (lit "trace") d) VNone
                (lookup (lit "trace_id") processed_log) /\
    defaults_to (lookup (lit "spanId") d) VNone
                (lookup (lit "span_id") processed_log).
Proof.
  intros D W.
  destruct (extract_fields_well_shaped d W) as (r & l & Er & El & E).
  rewrite (process_deserialized _ _ m D), E.
  eexists; split; [reflexivity|].
  change (lookup (lit "severity") _) with
    (Some (dict_get d (lit "severity") (VStr (lit "INFO")))) at 2.
  repeat match goal with
         | |- _ /\ _ => split
         end;
    try apply defaults_to_dict_get.
  - change (lookup (lit "message") (_ :: _)) with
      (Some (dict_get d (lit "textPayload")
                      (dict_get d (lit "message") (VStr (lit ""))))).
    unfold dict_get.
    destruct (lookup (lit "textPayload") d), (lookup (lit "message") d);
      reflexivity.
  - apply (defaults_to_child d r _ _ _ Er).
  - rewrite (child_dict_get d r _ (lit "labels") Er).
    apply (defaults_to_child r l _ _ _ El).
Qed.

(** C1, as stated, fails: a JSON object whose [resource] is [null] is
    dropped. *)
Lemma parse_drops_null_resource :
  deserializes_to (Interp.payload "{'resource': null}")
                  (VDict [(lit "resource", VNone)]) /\
  ParseLogEntry.process (Interp.payload "{'resource': null}") fresh =
  ([], inc_parse_errors AttributeError fresh).
Proof. split; [eexists; split; reflexivity | reflexivity]. Qed.

(** The scenario of the specification, from the bytes of the message. *)
Lemma parse_fills_defaults_scenario :
  exists processed_log,
    ParseLogEntry.process
      (Interp.payload
         "{'severity':'ERROR','textPayload':'boom','resource':{'labels':{'project_id':'proj-7'}}}")
      fresh = ([processed_log], inc_valid_logs fresh) /\
    lookup (lit "severity") processed_log = Some (VStr (lit "ERROR")) /\
    lookup (lit "message") processed_log = Some (VStr (lit "boom")) /\
    lookup (lit "resource_type") processed_log = Some (VStr (lit "unknown")) /\
    lookup (lit "project_id") processed_log = Some (VStr (lit "proj-7")) /\
    lookup (lit "labels") processed_log = Some (VDict []) /\
    lookup (lit "timestamp") processed_log = Some VNone /\
    lookup (lit "trace_id") processed_log = Some VNone /\
    lookup (lit "span_id") processed_log = Some VNone.
Proof.
  destruct (parse_fills_defaults
              (Interp.payload
                 "{'severity':'ERROR','textPayload':'boom','resource':{'labels':{'project_id':'proj-7'}}}")
              [ (lit "severity", VStr (lit "ERROR"));
                (lit "textPayload", VStr (lit "boom"));
                (lit "resource",
                 VDict [(lit "labels",
                         VDict [(lit "project_id", VStr (lit "proj-7"))])]) ]
              fresh)
    as (processed_log & E & Hsev & Hmsg & Hty & Hproj & Hlab & Hts & Htr & Hsp).
  - eexists; split; reflexivity.
  - reflexivity.
  - exists processed_log. repeat split; assumption.
Defined.

(** C2 (as amended): for every input that deserializes to a JSON object,
    parse emits the record exactly when [resource] and [resource.labels],
    where present, are mappings.  A value of another type at either place
    makes extraction raise [AttributeError]; the handler catches it, the
    record is dropped and [parse_errors] is incremented: no field degrades
    to its default there. *)
Theorem parse_emits_iff_well_shaped `{Runtime} (element : value) (d : dict)
  (m : Metrics) :
  deserializes_to element (VDict d) ->
  (well_shaped d = true ->
   exists processed_log,
     ParseLogEntry.process element m = ([processed_log], inc_valid_logs m)) /\
  (well_shaped d = false ->
   ParseLogEntry.process element m = ([], inc_parse_errors AttributeError m)).
Proof.
  intros D. rewrite (process_deserialized _ _ m D). split; intros W.
  - destruct (extract_fields_well_shaped d W) as (r & l & _ & _ & E).
    rewrite E. eexists; reflexivity.
  - rewrite (extract_fields_ill_shaped d W). reflexivity.
Qed.

(** C2, as stated, fails: a document whose [resource] is a string, not a
    mapping, yields no record. *)
Lemma parse_drops_string_resource :
  deserializes_to (Interp.payload "{'severity': 'INFO', 'resource': 'gce_instance'}")
                  (VDict [ (lit "severity", VStr (lit "INFO"));
                           (lit "resource", VStr (lit "gce_instance")) ]) /\
  ParseLogEntry.process
    (Interp.payload "{'severity': 'INFO', 'resource': 'gce_instance'}") fresh =
  ([], inc_parse_errors AttributeError fresh).
Proof. split; [eexists; split; reflexivity | reflexivity]. Qed.

Lemma parse_emits_iff_well_shaped_witness :
  (exists processed_log,
     ParseLogEntry.process (Interp.payload "{'resource': {'type': 'k8s_container'}}")
                           fresh = ([processed_log], inc_valid_logs fresh)) /\
  ParseLogEntry.process (Interp.payload "{'resource': {'labels': 7}}") fresh =
  ([], inc_parse_errors AttributeError fresh).
Proof.
  split.
  - apply (parse_emits_iff_well_shaped
             (Interp.payload "{'resource': {'type': 'k8s_container'}}")
             [(lit "resource", VDict [(lit "type", VStr (lit "k8s_container"))])]
             fresh).
    + eexists; split; reflexivity.
    + reflexivity.
  - apply (parse_emits_iff_well_shaped
             (Interp.payload "{'resource': {'labels': 7}}")
             [(lit "resource", VDict [(lit "labels", VInt 7)])]
             fresh).
    + eexists; split; reflexivity.
    + reflexivity.
Defined.

(** C3: a malformed input yields no record, increments [parse_errors] by
    one and leaves [valid_logs] as it was; an input that yields a record
    increments [valid_logs] by one and leaves [parse_errors] as it was. *)
Theorem malformed_dropped_and_counted `{Runtime} (element : value) (m : Metrics) :
  (malformed element ->
   fst (ParseLogEntry.process element m) = [] /\
   parse_errors (snd (ParseLogEntry.process element m)) = parse_errors m + 1 /\
   valid_logs (snd (ParseLogEntry.process element m)) = valid_logs m) /\
  (forall processed_log,
     In processed_log (fst (ParseLogEntry.process element m)) ->
     fst (ParseLogEntry.process element m) = [processed_log] /\
     valid_logs (snd (ParseLogEntry.process element m)) = valid_logs m + 1 /\
     parse_errors (snd (ParseLogEntry.process element m)) = parse_errors m).
Proof.
  split.
  - intros M. destruct (load_malformed element M) as [e E].
    unfold ParseLogEntry.process. rewrite E. cbn. auto.
  - intros processed_log. unfold ParseLogEntry.process.
    destruct (log_data <- load_log_data element ;; extract_fields log_data)
      as [rec|e]; cbn.
    + intros [<-|[]]. auto.
    + intros [].
Qed.

Lemma malformed_dropped_and_counted_witness :
  (fst (ParseLogEntry.process (Interp.payload "not json") fresh) = [] /\
   parse_errors (snd (ParseLogEntry.process (Interp.payload "not json") fresh)) = 1 /\
   valid_logs (snd (ParseLogEntry.process (Interp.payload "not json") fresh)) = 0) /\
  (valid_logs (snd (ParseLogEntry.process (Interp.payload "{'message': 'up'}") fresh)) = 1 /\
   parse_errors (snd (ParseLogEntry.process (Interp.payload "{'message': 'up'}") fresh)) = 0).
Proof.
  split.
  - apply (malformed_dropped_and_counted (Interp.payload "not json") fresh).
    reflexivity.
  - eapply (malformed_dropped_and_counted (Interp.payload "{'message': 'up'}") fresh).
    left. reflexivity.
Defined.

(** C10: an input that deserializes to a JSON value that is not an object
    (an array, a number, a string, a boolean, null) yields no record and
    increments [parse_errors], as a malformed input does. *)
Theorem non_object_document_counted_as_error `{Runtime} (element doc : value)
  (m : Metrics) :
  deserializes_to element doc ->
  is_mapping doc = false ->
  fst (ParseLogEntry.process element m) = [] /\
  parse_errors (snd (ParseLogEntry.process element m)) = parse_errors m + 1 /\
  valid_logs (snd (ParseLogEntry.process element m)) = valid_logs m /\
  logged (snd (ParseLogEntry.process element m)) = logged m ++ [AttributeError].
Proof.
  intros D N. rewrite (process_deserialized _ _ m D).
  rewrite (extract_fields_not_mapping doc N). cbn. auto.
Qed.

Lemma non_object_document_counted_as_error_witness :
  fst (ParseLogEntry.process (Interp.payload "[1, 2]") fresh) = [] /\
  parse_errors (snd (ParseLogEntry.process (Interp.payload "[1, 2]") fresh)) = 1 /\
  valid_logs (snd (ParseLogEntry.process (Interp.payload "[1, 2]") fresh)) = 0 /\
  logged (snd (ParseLogEntry.process (Interp.payload "[1, 2]") fresh)) =
  [AttributeError].
Proof.
  apply (non_object_document_counted_as_error
           (Interp.payload "[1, 2]") (VList [VInt 1; VInt 2]) fresh).
  - eexists; split; reflexivity.
  - reflexivity.
Defined.

(** [process] lets no exception through: it yields one record and counts
    it as valid, or yields none and counts a parse error. *)
Lemma process_emits_or_counts `{Runtime} (element : value) (m : Metrics) :
  (exists processed_log,
     ParseLogEntry.process element m = ([processed_log], inc_valid_logs m)) \/
  (exists e,
     ParseLogEntry.process element m = ([], inc_parse_errors e m)).
Proof.
  unfold ParseLogEntry.process.
  destruct (log_data <- load_log_data element ;; extract_fields log_data)
    as [processed_log|e]; [left|right]; eexists; reflexivity.
Qed.

(** ** EnrichLogs *)

Lemma lookup_stamped_message (now : str) (element : dict) :
  lookup (lit "message") (stamped now element) = lookup (lit "message") element.
Proof.
  unfold stamped.
  rewrite !lookup_dict_set_other by reflexivity. reflexivity.
Qed.

Lemma lookup_stamped_version (now : str) (element : dict) :
  lookup (lit "pipeline_version") (stamped now element) = Some (VStr (lit "1.0.0")).
Proof. apply lookup_dict_set_same. Qed.

Lemma lookup_stamped_time (now : str) (element : dict) :
  lookup (lit "ingestion_time") (stamped now element) = Some (VStr now).
Proof.
  unfold stamped. rewrite lookup_dict_set_other by reflexivity.
  apply lookup_dict_set_same.
Qed.

(** [enrich] on a record whose message is a string. *)
Lemma enrich_string_message `{Runtime} (now : str) (element : dict) (msg : str) :
  lookup (lit "message") element = Some (VStr msg) ->
  EnrichLogs.enrich now element =
  Ok (if 1000 <? Z.of_nat (List.length msg)
      then dict_set (stamped now element) (lit "message")
                    (VStr (firstn 1000 msg ++ truncation_marker))
      else stamped now element).
Proof.
  intros Hm. unfold EnrichLogs.enrich. cbv zeta. fold (stamped now element).
  assert (Hs := lookup_stamped_message now element). rewrite Hm in Hs.
  unfold dict_get, dict_getitem. rewrite Hs.
  cbn [py_len bind].
  destruct (1000 <? Z.of_nat (List.length msg)); reflexivity.
Qed.

(** What a successful [enrich] leaves behind. *)
Lemma enrich_result `{Runtime} (now : str) (element once : dict) :
  EnrichLogs.enrich now element = Ok once ->
  lookup (lit "pipeline_version") once = Some (VStr (lit "1.0.0")) /\
  lookup (lit "ingestion_time") once = Some (VStr now) /\
  message_settled once.
Proof.
  unfold EnrichLogs.enrich. cbv zeta. fold (stamped now element).
  destruct (py_len (dict_get (stamped now element) (lit "message") (VStr (lit ""))))
    as [n|e] eqn:L; cbn [bind]; [|discriminate].
  destruct (1000 <? n) eqn:C.
  - unfold dict_getitem.
    destruct (lookup (lit "message") (stamped now element)) as [mv|] eqn:Lm;
      cbn [of_option bind]; [|discriminate].
    destruct mv; cbn [py_slice_to bind py_add_str]; try discriminate.
    intros [= <-].
    unfold dict_get in L. rewrite Lm in L. cbn [py_len] in L.
    injection L as L. apply Z.ltb_lt in C.
    rewrite !lookup_dict_set_other by reflexivity.
    split; [apply lookup_stamped_version|].
    split; [apply lookup_stamped_time|].
    right. exists (firstn 1000 s ++ truncation_marker).
    split; [apply lookup_dict_set_same|].
    rewrite firstn_app, firstn_firstn, Nat.min_id.
    rewrite firstn_length_le by lia.
    rewrite Nat.sub_diag, firstn_0, app_nil_r. reflexivity.
  - intros [= <-]. apply Z.ltb_ge in C.
    split; [apply lookup_stamped_version|].
    split; [apply lookup_stamped_time|].
    left. exists n. split; [exact L | exact C].
Qed.

(** On a record that [enrich] has produced, a second [enrich] only resets
    the ingestion time. *)
Lemma enrich_settled `{Runtime} (now : str) (d : dict) :
  lookup (lit "pipeline_version") d = Some (VStr (lit "1.0.0")) ->
  message_settled d ->
  EnrichLogs.enrich now d = Ok (dict_set d (lit "ingestion_time") (VStr now)).
Proof.
  intros Hv Hm.
  assert (Es : stamped now d = dict_set d (lit "ingestion_time") (VStr now)).
  { unfold stamped. apply dict_set_same_value.
    rewrite lookup_dict_set_other by reflexivity. exact Hv. }
  destruct Hm as [(n & L & C) | (t & Lt & Et)].
  - unfold EnrichLogs.enrich. cbv zeta. fold (stamped now d).
    assert (L' : py_len (dict_get (stamped now d) (lit "message") (VStr (lit "")))
                 = Ok n).
    { unfold dict_get. rewrite lookup_stamped_message. exact L. }
    rewrite L'. cbn [bind].
    apply Z.ltb_ge in C. rewrite C, Es. reflexivity.
  - rewrite (enrich_string_message now d t Lt).
    destruct (1000 <? Z.of_nat (List.length t)); [|rewrite Es; reflexivity].
    rewrite Et, dict_set_same_value, Es; [reflexivity|].
    rewrite lookup_stamped_message. exact Lt.
Qed.

(** C4: when the message of a record is a string of more than 1000
    characters, [enrich] leaves a message of 1000 characters plus the
    marker: its first 1000 characters are those of the original and the
    rest is exactly "...[TRUNCATED]"; a message of at most 1000 characters
    is left unchanged. *)
Theorem enrich_truncates_long_messages `{Runtime} (now : str) (element : dict) (msg : str) :
  lookup (lit "message") element = Some (VStr msg) ->
  exists enriched new_msg,
    EnrichLogs.enrich now element = Ok enriched /\
    lookup (lit "message") enriched = Some (VStr new_msg) /\
    ((1000 < List.length msg)%nat ->
     List.length new_msg = (1000 + List.length (lit "...[TRUNCATED]"))%nat /\
     firstn 1000 new_msg = firstn 1000 msg /\
     skipn 1000 new_msg = lit "...[TRUNCATED]") /\
    ((List.length msg <= 1000)%nat -> new_msg = msg).
Proof.
  intros Hm. rewrite (enrich_string_message now element msg Hm).
  destruct (1000 <? Z.of_nat (List.length msg)) eqn:C.
  - apply Z.ltb_lt in C.
    exists (dict_set (stamped now element) (lit "message")
                     (VStr (firstn 1000 msg ++ truncation_marker))),
           (firstn 1000 msg ++ truncation_marker).
    split; [reflexivity|]. split; [apply lookup_dict_set_same|].
    assert (Hlen : List.length (firstn 1000 msg) = 1000%nat)
      by (apply firstn_length_le; lia).
    split; [intros _|intros Hle; lia].
    split; [|split].
    + rewrite length_app, Hlen. reflexivity.
    + rewrite firstn_app, firstn_firstn, Nat.min_id, Hlen.
      rewrite Nat.sub_diag, firstn_0, app_nil_r. reflexivity.
    + rewrite skipn_app, Hlen, Nat.sub_diag.
      rewrite skipn_all2 by lia. reflexivity.
  - apply Z.ltb_ge in C.
    exists (stamped now element), msg.
    split; [reflexivity|].
    split; [rewrite lookup_stamped_message; exact Hm|].
    split; [intros Hlt; lia | reflexivity].
Qed.

Lemma enrich_truncates_long_messages_witness :
  (exists enriched new_msg,
     EnrichLogs.enrich (lit "2024-05-01T12:00:00")
                       [(lit "message", VStr (repeat 120%N 1001))] = Ok enriched /\
     lookup (lit "message") enriched = Some (VStr new_msg) /\
     List.length new_msg = 1014%nat /\
     firstn 1000 new_msg = repeat 120%N 1000 /\
     skipn 1000 new_msg = lit "...[TRUNCATED]") /\
  (exists enriched,
     EnrichLogs.enrich (lit "2024-05-01T12:00:00")
                       [(lit "message", VStr (lit "started"))] = Ok enriched /\
     lookup (lit "message") enriched = Some (VStr (lit "started"))).
Proof.
  split.
  - destruct (enrich_truncates_long_messages
                (lit "2024-05-01T12:00:00")
                [(lit "message", VStr (repeat 120%N 1001))]
                (repeat 120%N 1001) eq_refl)
      as (enriched & new_msg & E & L & Hlong & _).
    exists enriched, new_msg.
    destruct Hlong as (Hlen & Hpre & Hsuf).
    { vm_compute. apply Nat.leb_le. vm_compute. reflexivity. }
    split; [exact E|]. split; [exact L|].
    split; [exact Hlen|]. split; [|exact Hsuf].
    rewrite Hpre. vm_compute. reflexivity.
  - destruct (enrich_truncates_long_messages
                (lit "2024-05-01T12:00:00")
                [(lit "message", VStr (lit "started"))]
                (lit "started") eq_refl)
      as (enriched & new_msg & E & L & _ & Hshort).
    exists enriched. split; [exact E|].
    rewrite L, Hshort; [reflexivity|].
    apply Nat.leb_le. vm_compute. reflexivity.
Defined.

(** C7: on a record that [enrich] has produced, [enrich] succeeds again and
    changes nothing but [ingestion_time]: [pipeline_version] is "1.0.0"
    after one pass and after two, the message is the same (a truncated
    message is cut at the same place and gets the same marker), and so is
    every other field; with the same clock reading the record is the same. *)
Theorem enrich_idempotent_but_time `{Runtime} (now1 now2 : str) (element once : dict) :
  EnrichLogs.enrich now1 element = Ok once ->
  exists twice,
    EnrichLogs.enrich now2 once = Ok twice /\
    lookup (lit "pipeline_version") once = Some (VStr (lit "1.0.0")) /\
    lookup (lit "pipeline_version") twice = Some (VStr (lit "1.0.0")) /\
    lookup (lit "message") twice = lookup (lit "message") once /\
    (forall k, k <> lit "ingestion_time" -> lookup k twice = lookup k once) /\
    lookup (lit "ingestion_time") twice = Some (VStr now2) /\
    (now2 = now1 -> twice = once).
Proof.
  intros E. destruct (enrich_result now1 element once E) as (Hv & Ht & Hm).
  exists (dict_set once (lit "ingestion_time") (VStr now2)).
  split; [apply (enrich_settled now2 once Hv Hm)|].
  split; [exact Hv|].
  split; [rewrite lookup_dict_set_other by reflexivity; exact Hv|].
  split; [apply lookup_dict_set_other; reflexivity|].
  split; [|split].
  - intros k Hk. apply lookup_dict_set_other.
    destruct (str_eqb k (lit "ingestion_time")) eqn:Ek; [|reflexivity].
    apply str_eqb_eq in Ek. contradiction.
  - apply lookup_dict_set_same.
  - intros ->. apply dict_set_same_value. exact Ht.
Qed.

Lemma enrich_idempotent_but_time_witness :
  exists once twice,
    EnrichLogs.enrich (lit "2024-05-01T12:00:00")
                      [(lit "message", VStr (repeat 120%N 1001))] = Ok once /\
    EnrichLogs.enrich (lit "2024-05-01T12:00:07") once = Ok twice /\
    lookup (lit "pipeline_version") twice = Some (VStr (lit "1.0.0")) /\
    lookup (lit "message") twice = lookup (lit "message") once.
Proof.
  destruct (EnrichLogs.enrich (lit "2024-05-01T12:00:00")
                              [(lit "message", VStr (repeat 120%N 1001))])
    as [once|e] eqn:E.
  - destruct (enrich_idempotent_but_time
                (lit "2024-05-01T12:00:00") (lit "2024-05-01T12:00:07")
                [(lit "message", VStr (repeat 120%N 1001))] once E)
      as (twice & E2 & _ & Hv & Hmsg & _).
    exists once, twice. auto.
  - vm_compute in E. discriminate.
Defined.

(** After [enrich] a string message has at most 1000 characters plus the 14
    of the marker. *)
Theorem enriched_message_at_most_1014 `{Runtime} (now : str) (element enriched : dict)
  (msg : str) :
  EnrichLogs.enrich now element = Ok enriched ->
  lookup (lit "message") enriched = Some (VStr msg) ->
  (List.length msg <= 1014)%nat.
Proof.
  intros E Hm. destruct (enrich_result now element enriched E) as (_ & _ & Hs).
  destruct Hs as [(n & L & C) | (t & Lt & Et)].
  - unfold dict_get in L. rewrite Hm in L. cbn [py_len] in L.
    injection L as L. lia.
  - rewrite Hm in Lt. injection Lt as <-.
    rewrite <- Et, length_app.
    pose proof (firstn_le_length 1000 msg).
    change (List.length truncation_marker) with 14%nat. lia.
Qed.

Lemma enriched_message_at_most_1014_witness :
  exists enriched msg,
    EnrichLogs.enrich (lit "2024-05-01T12:00:00")
                      [(lit "message", VStr (repeat 120%N 1500))] = Ok enriched /\
    lookup (lit "message") enriched = Some (VStr msg) /\
    (List.length msg <= 1014)%nat.
Proof.
  pose proof (enrich_string_message
                (lit "2024-05-01T12:00:00")
                [(lit "message", VStr (repeat 120%N 1500))]
                (repeat 120%N 1500) eq_refl) as E.
  change (1000 <? Z.of_nat (List.length (repeat 120%N 1500))) with true in E.
  cbv iota in E.
  eexists. exists (firstn 1000 (repeat 120%N 1500) ++ truncation_marker).
  split; [exact E|].
  split; [apply lookup_dict_set_same|].
  apply (enriched_message_at_most_1014 _ _ _ _ E).
  apply lookup_dict_set_same.
Defined.

(** C8, the failing input: the parser passes a [null] textPayload on as the
    message, and [enrich] raises [TypeError] on it ([len(None)]); nothing
    catches it. *)
Lemma enrich_raises_on_null_payload :
  exists processed_log,
    ParseLogEntry.process (Interp.payload "{'textPayload': null}") fresh =
    ([processed_log], inc_valid_logs fresh) /\
    lookup (lit "message") processed_log = Some VNone /\
    forall now, EnrichLogs.process now processed_log = Raise TypeError.
Proof.
  eexists. split; [reflexivity|]. split; [reflexivity|].
  intros now. reflexivity.
Qed.

(** ** DetermineShardTable *)

Lemma shard_num_of_range (h : Z) : 1 <= DetermineShardTable.shard_num_of h <= 4.
Proof.
  unfold DetermineShardTable.shard_num_of.
  pose proof (Z.mod_pos_bound h 4 ltac:(lia)). lia.
Qed.

Lemma shard_of_range `{Runtime} (element : dict) : 1 <= shard_of element <= 4.
Proof. apply shard_num_of_range. Qed.




(** ** run_pipeline *)

Lemma shards_in_range (n : Z) : 1 <= n <= 4 -> n = 1 \/ n = 2 \/ n = 3 \/ n = 4.
Proof. lia. Qed.

Ltac run_step :=
  match goal with
  | |- context [match beam_call ?c with _ => _ end] =>
      destruct (beam_call c) as [[]|?] eqn:?
  | |- context [match getattr ?ns ?k with _ => _ end] =>
      destruct (getattr ns k) as [?|?] eqn:?
  end;
  cbv beta iota.

Ltac run_all :=
  change (range 1 5) with [1; 2; 3; 4];
  cbv [and_then done ask for_each of_option fst snd app calls];
  repeat run_step.

Ltac in_planned :=
  unfold planned;
  first
    [ left; reflexivity
    | right; left; eexists; split; [eassumption | reflexivity]
    | do 2 right; left; reflexivity
    | do 3 right; left; reflexivity
    | do 4 right; left; reflexivity
    | do 5 right; left; reflexivity
    | do 6 right; left; eexists; split; [|reflexivity]; cbn [In]; tauto
    | do 7 right; left; reflexivity
    | do 8 right; left; do 3 eexists;
      split; [|split; [eassumption|split; [eassumption|reflexivity]]];
      cbn [In]; tauto
    | do 9 right; reflexivity ].

Lemma run_pipeline_calls `{ArgParser} `{Beam} (argv : list str) (c : Call) :
  In c (calls (run_pipeline argv)) ->
  exists known_args pipeline_args,
    parse_known_args known_arguments argv = Some (known_args, pipeline_args) /\
    planned known_args pipeline_args c.
Proof.
  unfold run_pipeline.
  destruct (parse_known_args known_arguments argv)
    as [[known_args pipeline_args]|] eqn:Ea.
  - intros Hin. exists known_args, pipeline_args. split; [reflexivity|].
    revert Hin. run_all;
      cbn [In]; intros Hin;
      repeat (destruct Hin as [<-|Hin]; [in_planned|]); destruct Hin.
  - cbv [and_then done of_option calls fst]. intros [].
Qed.

(** The window is asked for as soon as Beam has accepted what comes before
    it, and the first write as soon as it has accepted what comes before
    that. *)
Lemma run_pipeline_reaches `{ArgParser} `{Beam} (argv : list str)
  (known_args : Namespace) (pipeline_args : list str) (sub : str) :
  parse_known_args known_arguments argv = Some (known_args, pipeline_args) ->
  getattr known_args (lit "input_subscription") = Ok sub ->
  beam_call (NewPipeline pipeline_args true) = Ok tt ->
  beam_call (ReadFromPubSub sub) = Ok tt ->
  beam_call (ParDo ParseLogEntryFn) = Ok tt ->
  beam_call (ParDo EnrichLogsFn) = Ok tt ->
  In (WindowInto 60) (calls (run_pipeline argv)) /\
  (forall project_id output_dataset,
     getattr known_args (lit "project_id") = Ok project_id ->
     getattr known_args (lit "output_dataset") = Ok output_dataset ->
     beam_call (WindowInto 60) = Ok tt ->
     beam_call (ParDo DetermineShardTableFn) = Ok tt ->
     beam_call (Filter (shard_table_name 1)) = Ok tt ->
     beam_call MapSecond = Ok tt ->
     In (WriteToBigQuery
           (bigquery_write project_id output_dataset (shard_table_name 1)))
        (calls (run_pipeline argv))).
Proof.
  intros Ea Es B1 B2 B3 B4. unfold run_pipeline. rewrite Ea.
  change (range 1 5) with [1; 2; 3; 4].
  cbv [and_then done ask for_each of_option fst snd app calls].
  rewrite B1, Es, B2, B3, B4. cbv beta iota.
  split.
  - repeat run_step; cbn [In]; auto 10.
  - intros proj ds Ep Ed B5 B6 B7 B8.
    rewrite B5, B6, B7, B8, Ep, Ed. cbv beta iota.
    repeat run_step; cbn [In]; auto 20.
Qed.

(** C6, the failing input: with the three required arguments,
    [run_pipeline] constructs the source, the three [ParDo]s, the window
    and the filter of shard 1, and then [WriteToBigQuery], which refuses
    the schema it is given (a list of [SchemaField]) with [TypeError]: the
    pipeline is never run and nothing is ever appended, to any shard. *)
Lemma run_pipeline_raises_at_first_write :
  run_pipeline [ lit "--input_subscription";
                 lit "projects/central/subscriptions/logs";
                 lit "--output_dataset"; lit "observability";
                 lit "--project_id"; lit "central" ] =
  ([ NewPipeline [] true;
     ReadFromPubSub (lit "projects/central/subscriptions/logs");
     ParDo ParseLogEntryFn;
     ParDo EnrichLogsFn;
     WindowInto 60;
     ParDo DetermineShardTableFn;
     Filter (lit "real_time_logs_shard_1");
     MapSecond;
     WriteToBigQuery
       {| table := lit "central:observability.real_time_logs_shard_1";
          schema := create_bigquery_schema;
          create_disposition := CREATE_NEVER;
          write_disposition := WRITE_APPEND;
          time_partitioning_type := lit "DAY";
          time_partitioning := lit "timestamp";
          clustering := [lit "severity"; lit "resource_type"; lit "project_id"] |} ],
   Raise TypeError) /\
  ~ In Run (calls (run_pipeline [ lit "--input_subscription";
                                  lit "projects/central/subscriptions/logs";
                                  lit "--output_dataset"; lit "observability";
                                  lit "--project_id"; lit "central" ])).
Proof.
  split; [reflexivity|].
  cbv. intros Hin.
  repeat (destruct Hin as [Hin|Hin]; [discriminate Hin|]). exact Hin.
Qed.




(** * Further properties *)

(** ** A bundle of messages through ParseLogEntry *)

Lemma process_records_fixed `{Runtime} (element : value) (m m' : Metrics) :
  fst (ParseLogEntry.process element m) = fst (ParseLogEntry.process element m').
Proof.
  unfold ParseLogEntry.process.
  destruct (log_data <- load_log_data element ;; extract_fields log_data);
    reflexivity.
Qed.

Lemma parse_entries_records_fixed `{Runtime} (elements : list value)
  (m m' : Metrics) :
  fst (parse_entries elements m) = fst (parse_entries elements m').
Proof.
  revert m m'; induction elements as [|e l IH]; intros m m'; [reflexivity|].
  cbn [parse_entries].
  pose proof (process_records_fixed e m m') as E.
  destruct (ParseLogEntry.process e m) as [o1 m1].
  destruct (ParseLogEntry.process e m') as [o1' m1'].
  cbn [fst] in E. subst o1'.
  specialize (IH m1 m1').
  destruct (parse_entries l m1) as [o2 m2].
  destruct (parse_entries l m1') as [o2' m2'].
  cbn [fst] in *. rewrite IH. reflexivity.
Qed.

Lemma parse_entries_app `{Runtime} (a b : list value) (m : Metrics) :
  parse_entries (a ++ b) m =
  (fst (parse_entries a m) ++ fst (parse_entries b (snd (parse_entries a m))),
   snd (parse_entries b (snd (parse_entries a m)))).
Proof.
  revert m; induction a as [|e a IH]; intros m; cbn [app parse_entries].
  - cbn [fst snd app]. destruct (parse_entries b m); reflexivity.
  - destruct (ParseLogEntry.process e m) as [o1 m1].
    rewrite IH. destruct (parse_entries a m1) as [o2 m2]. cbn [fst snd].
    rewrite app_assoc. reflexivity.
Qed.

Lemma parse_entries_counts `{Runtime} (elements : list value) (m : Metrics) :
  valid_logs (snd (parse_entries elements m)) =
  valid_logs m + Z.of_nat (List.length (fst (parse_entries elements m))) /\
  parse_errors (snd (parse_entries elements m)) =
  parse_errors m + Z.of_nat (List.length elements)
  - Z.of_nat (List.length (fst (parse_entries elements m))) /\
  (List.length (fst (parse_entries elements m)) <= List.length elements)%nat /\
  List.length (logged (snd (parse_entries elements m))) =
  (List.length (logged m) + List.length elements
   - List.length (fst (parse_entries elements m)))%nat.
Proof.
  revert m; induction elements as [|e l IH]; intros m; cbn [parse_entries].
  - cbn. repeat split; lia.
  - destruct (process_emits_or_counts e m) as [[rec E]|[x E]]; rewrite E;
      match goal with
      | |- context [parse_entries l ?m1] =>
          specialize (IH m1); destruct (parse_entries l m1) as [outs m2]
      end;
      cbn [fst snd app List.length inc_valid_logs inc_parse_errors
           valid_logs parse_errors logged] in *;
      destruct IH as (Hv & He & Hl & Hg);
      rewrite Hv, He, Hg, ?length_app; cbn [List.length];
      repeat split; lia.
Qed.

(** The counters account for every message of a bundle: [valid_logs] grows
    by the number of records emitted, [parse_errors] by the number of
    messages that gave none, and no message gives more than one record. *)
Theorem parse_entries_counters `{Runtime} (elements : list value) (m : Metrics) :
  valid_logs (snd (parse_entries elements m)) =
  valid_logs m + Z.of_nat (List.length (fst (parse_entries elements m))) /\
  parse_errors (snd (parse_entries elements m)) =
  parse_errors m + Z.of_nat (List.length elements)
  - Z.of_nat (List.length (fst (parse_entries elements m))) /\
  (List.length (fst (parse_entries elements m)) <= List.length elements)%nat /\
  List.length (logged (snd (parse_entries elements m))) =
  (List.length (logged m) + List.length elements
   - List.length (fst (parse_entries elements m)))%nat.
Proof. apply parse_entries_counts. Qed.

(** A malformed message in a bundle costs one [parse_errors] and nothing
    else: the records emitted and [valid_logs] are those of the bundle
    without it. *)
Theorem malformed_message_is_isolated `{Runtime} (before after : list value)
  (bad : value) (m : Metrics) :
  malformed bad ->
  fst (parse_entries (before ++ bad :: after) m) =
  fst (parse_entries (before ++ after) m) /\
  valid_logs (snd (parse_entries (before ++ bad :: after) m)) =
  valid_logs (snd (parse_entries (before ++ after) m)) /\
  parse_errors (snd (parse_entries (before ++ bad :: after) m)) =
  parse_errors (snd (parse_entries (before ++ after) m)) + 1.
Proof.
  intros Hbad.
  assert (R : fst (parse_entries (before ++ bad :: after) m) =
              fst (parse_entries (before ++ after) m)).
  { rewrite !parse_entries_app. cbn [fst]. f_equal.
    cbn [parse_entries].
    destruct (load_malformed bad Hbad) as [e E].
    unfold ParseLogEntry.process at 1. rewrite E. cbn [bind].
    pose proof (parse_entries_records_fixed
                  after (inc_parse_errors e (snd (parse_entries before m)))
                  (snd (parse_entries before m))) as F.
    destruct (parse_entries after (inc_parse_errors e (snd (parse_entries before m)))).
    exact F. }
  split; [exact R|].
  destruct (parse_entries_counts (before ++ bad :: after) m) as (Hv & He & _).
  destruct (parse_entries_counts (before ++ after) m) as (Hv' & He' & _).
  rewrite Hv, He, Hv', He', R, !length_app. cbn [List.length]. lia.
Qed.

Lemma malformed_message_is_isolated_witness :
  fst (parse_entries [Interp.payload "{'message': 'up'}";
                      Interp.payload "not json";
                      Interp.payload "{'message': 'down'}"] fresh) =
  fst (parse_entries [Interp.payload "{'message': 'up'}";
                      Interp.payload "{'message': 'down'}"] fresh) /\
  valid_logs (snd (parse_entries [Interp.payload "{'message': 'up'}";
                                  Interp.payload "not json";
                                  Interp.payload "{'message': 'down'}"] fresh)) =
  valid_logs (snd (parse_entries [Interp.payload "{'message': 'up'}";
                                  Interp.payload "{'message': 'down'}"] fresh)) /\
  parse_errors (snd (parse_entries [Interp.payload "{'message': 'up'}";
                                    Interp.payload "not json";
                                    Interp.payload "{'message': 'down'}"] fresh)) =
  parse_errors (snd (parse_entries [Interp.payload "{'message': 'up'}";
                                    Interp.payload "{'message': 'down'}"] fresh)) + 1.
Proof.
  apply (malformed_message_is_isolated
           [Interp.payload "{'message': 'up'}"]
           [Interp.payload "{'message': 'down'}"]
           (Interp.payload "not json") fresh).
  reflexivity.
Defined.

(** ** EnrichLogs on any record *)

Lemma keys_dict_set (d : dict) (k : str) (v : value) :
  map fst (dict_set d k v) = keys_with (map fst d) k.
Proof.
  unfold keys_with. induction d as [|[k' v'] d IH]; cbn; [reflexivity|].
  destruct (str_eqb k k'); cbn; [reflexivity|].
  rewrite IH. destruct (existsb (str_eqb k) (map fst d)); reflexivity.
Qed.

Lemma keys_dict_set_present (d : dict) (k : str) (v v' : value) :
  lookup k d = Some v -> map fst (dict_set d k v') = map fst d.
Proof.
  induction d as [|[k0 v0] d IH]; cbn; [discriminate|].
  destruct (str_eqb k k0); cbn; [reflexivity|].
  intros E. rewrite (IH E). reflexivity.
Qed.

Lemma str_neq_eqb (a b : str) : a <> b -> str_eqb a b = false.
Proof.
  intros N. destruct (str_eqb a b) eqn:E; [|reflexivity].
  apply str_eqb_eq in E. contradiction.
Qed.

(** The two ways [enrich] returns. *)
Lemma enrich_inv `{Runtime} (now : str) (element out : dict) :
  EnrichLogs.enrich now element = Ok out ->
  (out = stamped now element /\
   exists n, py_len (dict_get element (lit "message") (VStr (lit ""))) = Ok n /\
             n <= 1000) \/
  (exists s, lookup (lit "message") element = Some (VStr s) /\
             1000 < Z.of_nat (List.length s) /\
             out = dict_set (stamped now element) (lit "message")
                            (VStr (firstn 1000 s ++ truncation_marker))).
Proof.
  unfold EnrichLogs.enrich. cbv zeta. fold (stamped now element).
  assert (G : dict_get (stamped now element) (lit "message") (VStr (lit "")) =
              dict_get element (lit "message") (VStr (lit ""))).
  { unfold dict_get. rewrite lookup_stamped_message. reflexivity. }
  rewrite G.
  destruct (py_len (dict_get element (lit "message") (VStr (lit ""))))
    as [n|e] eqn:L; cbn [bind]; [|discriminate].
  destruct (1000 <? n) eqn:C.
  - unfold dict_getitem. rewrite lookup_stamped_message.
    destruct (lookup (lit "message") element) as [mv|] eqn:Lm;
      cbn [of_option bind]; [|discriminate].
    destruct mv; cbn [py_slice_to bind py_add_str]; try discriminate.
    intros E. injection E as <-. right. exists s.
    unfold dict_get in L. rewrite Lm in L. cbn [py_len] in L.
    injection L as L. apply Z.ltb_lt in C.
    split; [reflexivity|]. split; [lia | reflexivity].
  - intros E. injection E as <-. left. split; [reflexivity|].
    exists n. apply Z.ltb_ge in C. split; [reflexivity | exact C].
Qed.

Lemma enrich_cases `{Runtime} (now : str) (element : dict) :
  if enrichable (dict_get element (lit "message") (VStr (lit "")))
  then exists out, EnrichLogs.enrich now element = Ok out
  else EnrichLogs.enrich now element =
       Raise (enrich_error (dict_get element (lit "message") (VStr (lit "")))).
Proof.
  destruct (lookup (lit "message") element) as [mv|] eqn:Lm.
  - assert (G : dict_get element (lit "message") (VStr (lit "")) = mv)
      by (unfold dict_get; rewrite Lm; reflexivity).
    rewrite G.
    destruct mv as [| | | |s|b|l|d]; cbn [enrichable enrich_error];
      try (rewrite (enrich_string_message now element s Lm); eexists; reflexivity);
      unfold EnrichLogs.enrich; cbv zeta; fold (stamped now element);
      unfold dict_get, dict_getitem; rewrite lookup_stamped_message, Lm;
      cbn [py_len bind of_option]; try reflexivity;
      rewrite Z.ltb_antisym;
      match goal with
      | |- context [?n <=? 1000] => destruct (n <=? 1000)
      end;
      cbn [negb py_slice_to py_add_str bind enrich_error];
      first [reflexivity | exists (stamped now element); reflexivity].
  - assert (G : dict_get element (lit "message") (VStr (lit "")) = VStr (lit ""))
      by (unfold dict_get; rewrite Lm; reflexivity).
    rewrite G. cbn [enrichable]. exists (stamped now element).
    unfold EnrichLogs.enrich. cbv zeta. fold (stamped now element).
    unfold dict_get. rewrite lookup_stamped_message, Lm. reflexivity.
Qed.

(** [enrich] returns exactly on the records whose message is a string, or
    a sequence or mapping of at most 1000 entries, or missing.  On every
    other record it raises: [TypeError], except that a mapping of more than
    1000 entries gives [KeyError] where slices are hashable (Python 3.12
    on). *)
Theorem enrich_returns_iff_enrichable `{Runtime} (now : str) (element : dict) :
  match dict_get element (lit "message") (VStr (lit "")) with
  | VStr _ => exists out, EnrichLogs.enrich now element = Ok out
  | VBytes b =>
      if Z.of_nat (List.length b) <=? 1000
      then exists out, EnrichLogs.enrich now element = Ok out
      else EnrichLogs.enrich now element = Raise TypeError
  | VList l =>
      if Z.of_nat (List.length l) <=? 1000
      then exists out, EnrichLogs.enrich now element = Ok out
      else EnrichLogs.enrich now element = Raise TypeError
  | VDict d =>
      if Z.of_nat (List.length d) <=? 1000
      then exists out, EnrichLogs.enrich now element = Ok out
      else EnrichLogs.enrich now element =
           Raise (if slice_hashable then KeyError else TypeError)
  | VNone | VBool _ | VInt _ | VFloat _ =>
      EnrichLogs.enrich now element = Raise TypeError
  end.
Proof.
  pose proof (enrich_cases now element) as C.
  destruct (dict_get element (lit "message") (VStr (lit "")));
    cbn [enrichable enrich_error] in C; exact C.
Qed.

Lemma enrich_frame_lemma `{Runtime} (now : str) (element out : dict) :
  EnrichLogs.enrich now element = Ok out ->
  map fst out =
  keys_with (keys_with (map fst element) (lit "ingestion_time"))
            (lit "pipeline_version") /\
  (forall k, k <> lit "message" -> k <> lit "ingestion_time" ->
             k <> lit "pipeline_version" -> lookup k out = lookup k element) /\
  match lookup (lit "message") element with
  | Some (VStr s) =>
      lookup (lit "message") out =
      Some (VStr (if 1000 <? Z.of_nat (List.length s)
                  then firstn 1000 s ++ lit "...[TRUNCATED]" else s))
  | other => lookup (lit "message") out = other
  end.
Proof.
  intros E.
  assert (K : map fst (stamped now element) =
              keys_with (keys_with (map fst element) (lit "ingestion_time"))
                        (lit "pipeline_version")).
  { unfold stamped. rewrite !keys_dict_set. reflexivity. }
  assert (F : forall k, k <> lit "ingestion_time" -> k <> lit "pipeline_version" ->
                        lookup k (stamped now element) = lookup k element).
  { intros k H1 H2. unfold stamped.
    rewrite !lookup_dict_set_other by (apply str_neq_eqb; assumption).
    reflexivity. }
  destruct (enrich_inv now element out E) as [(-> & n & L & C)|(s & Lm & C & ->)].
  - split; [exact K|]. split; [intros k _ H1 H2; apply F; assumption|].
    rewrite lookup_stamped_message.
    destruct (lookup (lit "message") element) as [[| | | |s| | |]|] eqn:Lm;
      try reflexivity.
    unfold dict_get in L. rewrite Lm in L. cbn [py_len] in L. injection L as L.
    apply Z.ltb_ge in C. rewrite L, C. reflexivity.
  - split.
    { rewrite (keys_dict_set_present _ _ (VStr s)); [exact K|].
      rewrite lookup_stamped_message. exact Lm. }
    split.
    { intros k H0 H1 H2.
      rewrite lookup_dict_set_other by (apply str_neq_eqb; assumption).
      apply F; assumption. }
    rewrite Lm, lookup_dict_set_same.
    apply Z.ltb_lt in C. rewrite C. reflexivity.
Qed.

(** [enrich] keeps the keys of the record in their order, adding
    [ingestion_time] and [pipeline_version] at the end when they are new;
    it leaves every other field but the message as it was, and the message
    too unless it is a string of more than 1000 characters. *)
Theorem enrich_frame `{Runtime} (now : str) (element out : dict) :
  EnrichLogs.enrich now element = Ok out ->
  map fst out =
  keys_with (keys_with (map fst element) (lit "ingestion_time"))
            (lit "pipeline_version") /\
  (forall k, k <> lit "message" -> k <> lit "ingestion_time" ->
             k <> lit "pipeline_version" -> lookup k out = lookup k element) /\
  match lookup (lit "message") element with
  | Some (VStr s) =>
      lookup (lit "message") out =
      Some (VStr (if 1000 <? Z.of_nat (List.length s)
                  then firstn 1000 s ++ lit "...[TRUNCATED]" else s))
  | other => lookup (lit "message") out = other
  end.
Proof. apply enrich_frame_lemma. Qed.

Lemma enrich_frame_witness :
  exists out,
    EnrichLogs.enrich (lit "2024-05-01T12:00:00")
                      [ (lit "severity", VStr (lit "INFO"));
                        (lit "message", VList [VInt 1; VInt 2]) ] = Ok out /\
    map fst out = [lit "severity"; lit "message"; lit "ingestion_time";
                   lit "pipeline_version"] /\
    lookup (lit "severity") out = Some (VStr (lit "INFO")) /\
    lookup (lit "message") out = Some (VList [VInt 1; VInt 2]).
Proof.
  destruct (EnrichLogs.enrich (lit "2024-05-01T12:00:00")
                              [ (lit "severity", VStr (lit "INFO"));
                                (lit "message", VList [VInt 1; VInt 2]) ])
    as [out|e] eqn:E; [|vm_compute in E; discriminate].
  destruct (enrich_frame _ _ out E) as (K & F & M).
  exists out. split; [reflexivity|]. split; [exact K|].
  split; [|exact M].
  rewrite F; [reflexivity | discriminate | discriminate | discriminate].
Defined.

(** ** Rows and the table schema *)

Lemma extract_fields_keys (log_data : value) (processed_log : dict) :
  extract_fields log_data = Ok processed_log ->
  map fst processed_log =
  [ lit "timestamp"; lit "severity"; lit "message"; lit "resource_type";
    lit "project_id"; lit "trace_id"; lit "span_id"; lit "labels";
    lit "resource_name"; lit "source_location" ].
Proof.
  destruct log_data as [| | | | | | |d]; try discriminate.
  unfold extract_fields. cbn [py_get bind].
  destruct (dict_get d (lit "resource") (VDict [])) as [| | | | | | |r];
    cbn [py_get bind]; try discriminate.
  destruct (dict_get r (lit "labels") (VDict [])) as [| | | | | | |l];
    cbn [py_get bind]; try discriminate.
  intros E. injection E as <-. reflexivity.
Qed.

Lemma process_emits_extracted `{Runtime} (element : value) (m : Metrics)
  (processed_log : dict) :
  In processed_log (fst (ParseLogEntry.process element m)) ->
  exists log_data, extract_fields log_data = Ok processed_log.
Proof.
  unfold ParseLogEntry.process.
  destruct (load_log_data element) as [log_data|e]; cbn [bind]; [|intros []].
  destruct (extract_fields log_data) as [rec|e] eqn:E; cbn; [|intros []].
  intros [<-|[]]. exists log_data. exact E.
Qed.

Lemma enriched_record_keys `{Runtime} (now : str) (element : value) (m : Metrics)
  (processed_log row : dict) :
  In processed_log (fst (ParseLogEntry.process element m)) ->
  EnrichLogs.enrich now processed_log = Ok row ->
  map fst row = map field_name create_bigquery_schema.
Proof.
  intros Hin E.
  destruct (process_emits_extracted element m processed_log Hin) as [doc Hx].
  destruct (enrich_frame_lemma now processed_log row E) as (K & _).
  rewrite K, (extract_fields_keys doc processed_log Hx). reflexivity.
Qed.

(** A record that [ParseLogEntry] emits and [EnrichLogs] returns has the
    columns of [create_bigquery_schema], each once and in the schema's
    order; in particular it has the partitioning column and the clustering
    columns of the writes. *)
Theorem row_has_schema_columns `{Runtime} (now : str) (element : value)
  (m : Metrics) (processed_log row : dict) :
  In processed_log (fst (ParseLogEntry.process element m)) ->
  EnrichLogs.enrich now processed_log = Ok row ->
  map fst row = map field_name create_bigquery_schema /\
  NoDup (map fst row) /\
  forall column, In column (time_partitioning_field :: clustering_fields) ->
                 exists v, lookup column row = Some v.
Proof.
  intros Hin E.
  pose proof (enriched_record_keys now element m processed_log row Hin E) as K.
  split; [exact K|]. split.
  - rewrite K.
    repeat (constructor;
            [cbn; intros Hn;
             repeat (destruct Hn as [Hn|Hn]; [discriminate Hn|]); exact Hn|]).
    constructor.
  - assert (L : forall k d, In k (map fst d) -> exists v, lookup k d = Some v).
    { intros k d. induction d as [|[k' v'] d IH]; cbn; [intros []|].
      intros [->|Hk].
      - rewrite str_eqb_refl. eauto.
      - destruct (str_eqb k k'); eauto. }
    intros column Hc. apply L. rewrite K.
    cbn in Hc. cbn.
    destruct Hc as [<-|[<-|[<-|[<-|[]]]]]; auto 10.
Qed.

Lemma row_has_schema_columns_witness :
  exists processed_log row,
    ParseLogEntry.process (Interp.payload "{'message': 'up'}") fresh =
    ([processed_log], inc_valid_logs fresh) /\
    EnrichLogs.enrich (lit "2024-05-01T12:00:00") processed_log = Ok row /\
    map fst row =
    [ lit "timestamp"; lit "severity"; lit "message"; lit "resource_type";
      lit "project_id"; lit "trace_id"; lit "span_id"; lit "labels";
      lit "resource_name"; lit "source_location"; lit "ingestion_time";
      lit "pipeline_version" ].
Proof.
  destruct (ParseLogEntry.process (Interp.payload "{'message': 'up'}") fresh)
    as [[|processed_log [|]] m1] eqn:P; try (vm_compute in P; discriminate).
  destruct (EnrichLogs.enrich (lit "2024-05-01T12:00:00") processed_log)
    as [row|e] eqn:E.
  - destruct (row_has_schema_columns
                (lit "2024-05-01T12:00:00") (Interp.payload "{'message': 'up'}")
                fresh processed_log row) as (K & _).
    + rewrite P. left. reflexivity.
    + exact E.
    + exists processed_log, row. split.
      * vm_compute in P. injection P as <- <-. reflexivity.
      * split; [exact E | exact K].
  - vm_compute in P. injection P as <- <-. vm_compute in E. discriminate.
Defined.

(** The two fields of the record the claims do not name: [resource_name]
    is [resource.labels.container_name], the empty string without it, and
    [source_location] is [sourceLocation], the empty mapping without it. *)
Theorem parse_fills_resource_name_and_location `{Runtime} (element : value)
  (d : dict) (m : Metrics) :
  deserializes_to element (VDict d) ->
  well_shaped d = true ->
  exists processed_log,
    ParseLogEntry.process element m = ([processed_log], inc_valid_logs m) /\
    defaults_to (child (child (lookup (lit "resource") d) (lit "labels"))
                       (lit "container_name"))
                (VStr (lit ""))
                (lookup (lit "resource_name") processed_log) /\
    defaults_to (lookup (lit "sourceLocation") d) (VDict [])
                (lookup (lit "source_location") processed_log).
Proof.
  intros D W.
  destruct (extract_fields_well_shaped d W) as (r & l & Er & El & E).
  rewrite (process_deserialized _ _ m D), E.
  eexists; split; [reflexivity|]. split.
  - rewrite (child_dict_get d r _ (lit "labels") Er).
    apply (defaults_to_child r l _ _ _ El).
  - apply defaults_to_dict_get.
Qed.

Lemma parse_fills_resource_name_and_location_witness :
  exists processed_log,
    ParseLogEntry.process
      (Interp.payload
         "{'resource': {'labels': {'container_name': 'api'}}, 'textPayload': 'x'}")
      fresh = ([processed_log], inc_valid_logs fresh) /\
    lookup (lit "resource_name") processed_log = Some (VStr (lit "api")) /\
    lookup (lit "source_location") processed_log = Some (VDict []).
Proof.
  apply (parse_fills_resource_name_and_location
           (Interp.payload
              "{'resource': {'labels': {'container_name': 'api'}}, 'textPayload': 'x'}")
           [ (lit "resource",
              VDict [(lit "labels",
                      VDict [(lit "container_name", VStr (lit "api"))])]);
             (lit "textPayload", VStr (lit "x")) ]
           fresh).
  - eexists; split; reflexivity.
  - reflexivity.
Defined.

(** ** DetermineShardTable on any record *)

Lemma determine_shard_cases `{Runtime} (element : dict) :
  if hashable (dict_get element (lit "project_id") (VStr (lit "")))
  then DetermineShardTable.process element =
       Ok [(shard_table_name (shard_of element), element)]
  else DetermineShardTable.process element = Raise TypeError.
Proof.
  unfold DetermineShardTable.process, shard_of.
  destruct (dict_get element (lit "project_id") (VStr (lit ""))); reflexivity.
Qed.

(** [DetermineShardTable] raises [TypeError] exactly when the [project_id]
    of the record is a list or a mapping; otherwise it yields one pair: the
    record as it came, under one of the four shard table names. *)
Theorem determine_shard_returns_iff_hashable `{Runtime} (element : dict) :
  if hashable (dict_get element (lit "project_id") (VStr (lit "")))
  then exists n, In n [1; 2; 3; 4] /\
                 DetermineShardTable.process element =
                 Ok [(lit "real_time_logs_shard_" ++ format_int n, element)]
  else DetermineShardTable.process element = Raise TypeError.
Proof.
  pose proof (determine_shard_cases element) as C.
  destruct (hashable (dict_get element (lit "project_id") (VStr (lit ""))));
    [|exact C].
  exists (shard_of element). split; [|exact C].
  pose proof (shard_of_range element) as R.
  destruct (shards_in_range _ R) as [E|[E|[E|E]]]; rewrite E; cbn; auto.
Qed.

(** ** What run_pipeline builds *)

(** [run_pipeline] never asks for a write that may create a table or
    replace its rows: every [WriteToBigQuery] it constructs, whatever the
    arguments, the parser and Beam, has the dispositions [CREATE_NEVER] and
    [WRITE_APPEND], the schema of [create_bigquery_schema], day partitions
    on [timestamp] and the three clustering fields.  When the parser
    refuses the arguments it leaves with [SystemExit] before any call; and
    once Beam has accepted the pipeline, the source, the three [ParDo]s,
    the window and the first filter and map, the write to shard 1 of the
    given dataset is constructed. *)
Theorem run_pipeline_writes_append_only `{ArgParser} `{Beam} (argv : list str) :
  (parse_known_args
     [lit "input_subscription"; lit "output_dataset"; lit "project_id"] argv
   = None ->
   run_pipeline argv = ([], Raise SystemExit)) /\
  (forall w, In (WriteToBigQuery w) (calls (run_pipeline argv)) ->
     create_disposition w = CREATE_NEVER /\
     write_disposition w = WRITE_APPEND /\
     schema w = create_bigquery_schema /\
     time_partitioning_type w = lit "DAY" /\
     time_partitioning w = lit "timestamp" /\
     clustering w = [lit "severity"; lit "resource_type"; lit "project_id"]) /\
  (forall known_args pipeline_args sub project_id output_dataset,
     parse_known_args
       [lit "input_subscription"; lit "output_dataset"; lit "project_id"] argv
     = Some (known_args, pipeline_args) ->
     getattr known_args (lit "input_subscription") = Ok sub ->
     getattr known_args (lit "project_id") = Ok project_id ->
     getattr known_args (lit "output_dataset") = Ok output_dataset ->
     beam_call (NewPipeline pipeline_args true) = Ok tt ->
     beam_call (ReadFromPubSub sub) = Ok tt ->
     beam_call (ParDo ParseLogEntryFn) = Ok tt ->
     beam_call (ParDo EnrichLogsFn) = Ok tt ->
     beam_call (WindowInto 60) = Ok tt ->
     beam_call (ParDo DetermineShardTableFn) = Ok tt ->
     beam_call (Filter (lit "real_time_logs_shard_1")) = Ok tt ->
     beam_call MapSecond = Ok tt ->
     In (WriteToBigQuery
           {| table := project_id ++ lit ":" ++ output_dataset ++ lit "."
                       ++ lit "real_time_logs_shard_1";
              schema := create_bigquery_schema;
              create_disposition := CREATE_NEVER;
              write_disposition := WRITE_APPEND;
              time_partitioning_type := lit "DAY";
              time_partitioning := lit "timestamp";
              clustering := [lit "severity"; lit "resource_type";
                             lit "project_id"] |})
        (calls (run_pipeline argv))).
Proof.
  split; [|split].
  - intros N. unfold run_pipeline.
    change known_arguments
      with [lit "input_subscription"; lit "output_dataset"; lit "project_id"].
    rewrite N. reflexivity.
  - intros w Hin.
    destruct (run_pipeline_calls argv _ Hin) as (ns & rest & Ea & P).
    unfold planned in P.
    repeat (destruct P as [P|P]; try discriminate P);
      try (destruct P as (? & ? & P); discriminate P).
    destruct P as (n & proj & ds & Hn & Ep & Ed & P). injection P as ->.
    repeat split.
  - intros ns rest sub proj ds Ea Es Ep Ed B1 B2 B3 B4 B5 B6 B7 B8.
    destruct (run_pipeline_reaches argv ns rest sub Ea Es B1 B2 B3 B4)
      as [_ W].
    exact (W proj ds Ep Ed B5 B6 B7 B8).
Qed.

Lemma run_pipeline_writes_append_only_witness :
  In (WriteToBigQuery
        {| table := lit "central:observability.real_time_logs_shard_1";
           schema := create_bigquery_schema;
           create_disposition := CREATE_NEVER;
           write_disposition := WRITE_APPEND;
           time_partitioning_type := lit "DAY";
           time_partitioning := lit "timestamp";
           clustering := [lit "severity"; lit "resource_type";
                          lit "project_id"] |})
     (calls (run_pipeline [ lit "--input_subscription";
                            lit "projects/central/subscriptions/logs";
                            lit "--output_dataset"; lit "observability";
                            lit "--project_id"; lit "central" ])).
Proof.
  apply (run_pipeline_writes_append_only
           [ lit "--input_subscription";
             lit "projects/central/subscriptions/logs";
             lit "--output_dataset"; lit "observability";
             lit "--project_id"; lit "central" ])
    with (known_args := [ (lit "input_subscription",
                           lit "projects/central/subscriptions/logs");
                          (lit "output_dataset", lit "observability");
                          (lit "project_id", lit "central") ])
         (pipeline_args := [])
         (sub := lit "projects/central/subscriptions/logs")
         (project_id := lit "central")
         (output_dataset := lit "observability");
    reflexivity.
Defined.

(** ** One message through the three stages *)

Lemma source_or_dict_get (d : dict) (k : str) (default : value) :
  dict_get d k default = source_or (lookup k d) default.
Proof. reflexivity. Qed.

(** A message that deserializes to a JSON object goes one of three ways.
    With a [resource] or [resource.labels] that is no mapping it is dropped
    as a parse error and yields nothing.  Otherwise [valid_logs] is
    incremented, and either the message reaches one shard table, as a row
    with the columns of the schema, or a later stage raises: [EnrichLogs]
    when the message (textPayload, else message) is not enrichable
    ([TypeError]; [KeyError] for a mapping of more than 1000 entries where
    slices are hashable), [DetermineShardTable] when
    [resource.labels.project_id] is a list or a mapping ([TypeError]). *)
Theorem processed_logs_outcomes `{Runtime} (now : str) (element : value)
  (d : dict) (m : Metrics) :
  deserializes_to element (VDict d) ->
  if negb (well_shaped d) then
    processed_logs now element m = (Ok [], inc_parse_errors AttributeError m)
  else if negb (enrichable
                  (source_or (lookup (lit "textPayload") d)
                     (source_or (lookup (lit "message") d) (VStr (lit "")))))
  then
    processed_logs now element m =
    (Raise (match source_or (lookup (lit "textPayload") d)
                    (source_or (lookup (lit "message") d) (VStr (lit ""))) with
            | VDict _ => if slice_hashable then KeyError else TypeError
            | _ => TypeError
            end),
     inc_valid_logs m)
  else if negb (hashable
                  (source_or
                     (child (child (lookup (lit "resource") d) (lit "labels"))
                            (lit "project_id"))
                     (VStr (lit "unknown"))))
  then
    processed_logs now element m = (Raise TypeError, inc_valid_logs m)
  else
    exists n row,
      In n [1; 2; 3; 4] /\
      processed_logs now element m =
      (Ok [(lit "real_time_logs_shard_" ++ format_int n, row)],
       inc_valid_logs m) /\
      map fst row = map field_name create_bigquery_schema.
Proof.
  intros D. unfold processed_logs.
  rewrite (process_deserialized _ _ m D).
  destruct (well_shaped d) eqn:W; cbn [negb].
  2: { rewrite (extract_fields_ill_shaped d W). reflexivity. }
  destruct (extract_fields_well_shaped d W) as (r & l & Er & El & E).
  assert (Hin : In (A := dict)
                   match extract_fields (VDict d) with
                   | Ok rec => rec | Raise _ => [] end
                   (fst (ParseLogEntry.process element m))).
  { rewrite (process_deserialized _ _ m D), E. left. reflexivity. }
  rewrite E in Hin |- *.
  match type of Hin with In ?x _ => set (rec := x) in * end.
  cbn [par_do bind]. unfold EnrichLogs.process.
  assert (Gm : dict_get rec (lit "message") (VStr (lit "")) =
               source_or (lookup (lit "textPayload") d)
                         (source_or (lookup (lit "message") d) (VStr (lit ""))))
    by reflexivity.
  assert (Gp : source_or
                 (child (child (lookup (lit "resource") d) (lit "labels"))
                        (lit "project_id"))
                 (VStr (lit "unknown")) =
               dict_get l (lit "project_id") (VStr (lit "unknown"))).
  { rewrite (child_dict_get d r _ (lit "labels") Er).
    rewrite (child_dict_get r l _ (lit "project_id") El). reflexivity. }
  rewrite <- Gm, Gp.
  pose proof (enrich_cases now rec) as C.
  destruct (enrichable (dict_get rec (lit "message") (VStr (lit ""))));
    cbn [negb]; [|rewrite C; reflexivity].
  destruct C as [row Erow]. rewrite Erow. cbn [bind app par_do].
  destruct (enrich_frame_lemma now rec row Erow) as (_ & F & _).
  assert (Pid : dict_get row (lit "project_id") (VStr (lit "")) =
                dict_get l (lit "project_id") (VStr (lit "unknown"))).
  { unfold dict_get at 1.
    rewrite F by discriminate. reflexivity. }
  pose proof (determine_shard_cases row) as S. rewrite Pid in S.
  destruct (hashable (dict_get l (lit "project_id") (VStr (lit "unknown"))));
    rewrite S; cbn [bind app negb]; [|reflexivity].
  exists (shard_of row), row. split; [|split; [reflexivity|]].
  - pose proof (shard_of_range row) as R.
    destruct (shards_in_range _ R) as [X|[X|[X|X]]]; rewrite X; cbn; auto.
  - apply (enriched_record_keys now element m rec row Hin Erow).
Qed.

Lemma processed_logs_outcomes_witness :
  processed_logs (lit "2024-05-01T12:00:00")
                 (Interp.payload "{'resource': 7}") fresh =
  (Ok [], inc_parse_errors AttributeError fresh) /\
  processed_logs (lit "2024-05-01T12:00:00")
                 (Interp.payload "{'textPayload': 12}") fresh =
  (Raise TypeError, inc_valid_logs fresh) /\
  processed_logs (lit "2024-05-01T12:00:00")
                 (Interp.payload "{'resource': {'labels': {'project_id': ['a']}}}")
                 fresh =
  (Raise TypeError, inc_valid_logs fresh).
Proof.
  split; [|split].
  - apply (processed_logs_outcomes
             (lit "2024-05-01T12:00:00") (Interp.payload "{'resource': 7}")
             [(lit "resource", VInt 7)] fresh).
    eexists; split; reflexivity.
  - apply (processed_logs_outcomes
             (lit "2024-05-01T12:00:00") (Interp.payload "{'textPayload': 12}")
             [(lit "textPayload", VInt 12)] fresh).
    eexists; split; reflexivity.
  - apply (processed_logs_outcomes
             (lit "2024-05-01T12:00:00")
             (Interp.payload "{'resource': {'labels': {'project_id': ['a']}}}")
             [(lit "resource",
               VDict [(lit "labels",
                       VDict [(lit "project_id", VList [VStr (lit "a")])])])]
             fresh).
    eexists; split; reflexivity.
Defined.

(** ** The sample application's logs in the pipeline *)

(** Every log entry [generate_application_log] builds goes through the
    pipeline: once deserialized it is parsed, enriched and routed without
    an exception, whatever the level, the message and the project id (also
    when [GOOGLE_CLOUD_PROJECT] is not set), and the row that reaches the
    shard table is the one below. *)
Theorem sample_application_log_is_routed `{Runtime} (PROJECT_ID : option str)
  (sent trace_id span_id level : str) (message : option str) (now : str)
  (element : value) (m : Metrics) :
  deserializes_to element
    (VDict (LogGenerator.generate_application_log
              PROJECT_ID sent trace_id span_id level message)) ->
  exists n row,
    In n [1; 2; 3; 4] /\
    processed_logs now element m = (Ok [(shard_table_name n, row)], inc_valid_logs m) /\
    n = py_hash_value (LogGenerator.value_of_opt PROJECT_ID) mod 4 + 1 /\
    row =
    [ (lit "timestamp", VStr (sent ++ lit "Z"));
      (lit "severity", VStr level);
      (lit "message",
       VStr (let text := LogGenerator.or_default message
                           (lit "Sample " ++ level ++ lit " message from application") in
             if 1000 <? Z.of_nat (List.length text)
             then firstn 1000 text ++ lit "...[TRUNCATED]" else text));
      (lit "resource_type", VStr (lit "cloud_run_revision"));
      (lit "project_id", LogGenerator.value_of_opt PROJECT_ID);
      (lit "trace_id",
       VStr (lit "projects/" ++ LogGenerator.format_opt PROJECT_ID
             ++ lit "/traces/" ++ trace_id));
      (lit "span_id", VStr span_id);
      (lit "labels",
       VDict [ (lit "component", VStr (lit "sample-application"));
               (lit "version", VStr (lit "1.0.0")) ]);
      (lit "resource_name", VStr (lit ""));
      (lit "source_location", VDict []);
      (lit "ingestion_time", VStr now);
      (lit "pipeline_version", VStr (lit "1.0.0")) ].
Proof.
  intros D. unfold processed_logs.
  rewrite (process_deserialized _ _ m D).
  set (text := LogGenerator.or_default message
                 (lit "Sample " ++ level ++ lit " message from application")).
  change (extract_fields
            (VDict (LogGenerator.generate_application_log
                      PROJECT_ID sent trace_id span_id level message)))
    with (Ok [ (lit "timestamp", VStr (sent ++ lit "Z"));
               (lit "severity", VStr level);
               (lit "message", VStr text);
               (lit "resource_type", VStr (lit "cloud_run_revision"));
               (lit "project_id", LogGenerator.value_of_opt PROJECT_ID);
               (lit "trace_id",
                VStr (lit "projects/" ++ LogGenerator.format_opt PROJECT_ID
                      ++ lit "/traces/" ++ trace_id));
               (lit "span_id", VStr span_id);
               (lit "labels",
                VDict [ (lit "component", VStr (lit "sample-application"));
                        (lit "version", VStr (lit "1.0.0")) ]);
               (lit "resource_name", VStr (lit ""));
               (lit "source_location", VDict []) ]).
  cbn [par_do bind]. unfold EnrichLogs.process.
  match goal with
  | |- context [EnrichLogs.enrich now ?rec] =>
      rewrite (enrich_string_message now rec text eq_refl)
  end.
  cbv zeta. fold text.
  destruct PROJECT_ID as [pid|];
    cbn [LogGenerator.value_of_opt LogGenerator.format_opt];
    destruct (1000 <? Z.of_nat (List.length text)); cbn [bind app par_do];
    match goal with
    | |- context [DetermineShardTable.process ?row] =>
        pose proof (determine_shard_cases row) as S;
        pose proof (shard_of_range row) as R;
        match goal with
        | |- context [py_hash_value ?v] =>
            change (dict_get row (lit "project_id") (VStr (lit ""))) with v in S;
            change (shard_of row) with (py_hash_value v mod 4 + 1) in S, R
        end
    end;
    cbn [hashable] in S; rewrite S; cbn [bind app];
    (eexists; eexists; split;
     [|split; [reflexivity|split; [reflexivity|reflexivity]]]);
    destruct (shards_in_range _ R) as [X|[X|[X|X]]]; rewrite X; cbn; auto.
Qed.

Lemma sample_application_log_is_routed_witness :
  exists n row,
    In n [1; 2; 3; 4] /\
    processed_logs
      (lit "2024-05-01T12:00:03")
      (Interp.payload
         "{'timestamp': '2024-05-01T12:00:00Z', 'severity': 'ERROR', 'textPayload': 'Database connection timeout - retrying', 'resource': {'type': 'cloud_run_revision', 'labels': {'project_id': 'proj-1', 'service_name': 'sample-app', 'revision_name': 'sample-app-v1'}}, 'labels': {'component': 'sample-application', 'version': '1.0.0'}, 'trace': 'projects/proj-1/traces/0123456789abcdef0123456789abcdef', 'spanId': '0123456789abcdef'}")
      fresh = (Ok [(shard_table_name n, row)], inc_valid_logs fresh) /\
    lookup (lit "severity") row = Some (VStr (lit "ERROR")) /\
    lookup (lit "message") row =
    Some (VStr (lit "Database connection timeout - retrying")) /\
    lookup (lit "project_id") row = Some (VStr (lit "proj-1")).
Proof.
  destruct (sample_application_log_is_routed
              (Some (lit "proj-1")) (lit "2024-05-01T12:00:00")
              (lit "0123456789abcdef0123456789abcdef") (lit "0123456789abcdef")
              (lit "ERROR") (Some (lit "Database connection timeout - retrying"))
              (lit "2024-05-01T12:00:03")
              (Interp.payload
                 "{'timestamp': '2024-05-01T12:00:00Z', 'severity': 'ERROR', 'textPayload': 'Database connection timeout - retrying', 'resource': {'type': 'cloud_run_revision', 'labels': {'project_id': 'proj-1', 'service_name': 'sample-app', 'revision_name': 'sample-app-v1'}}, 'labels': {'component': 'sample-application', 'version': '1.0.0'}, 'trace': 'projects/proj-1/traces/0123456789abcdef0123456789abcdef', 'spanId': '0123456789abcdef'}")
              fresh)
    as (n & row & Hin & P & _ & Hrow).
  - eexists; split; reflexivity.
  - exists n, row. split; [exact Hin|]. split; [exact P|].
    rewrite Hrow. repeat split; reflexivity.
Defined.

(** ** The schedule of generate_logs *)

Lemma range_0_succ (n : nat) :
  range 0 (Z.of_nat (S n)) = range 0 (Z.of_nat n) ++ [Z.of_nat n].
Proof.
  unfold range. rewrite !Z.sub_0_r, !Nat2Z.id, seq_S, map_app. reflexivity.
Qed.

Lemma count_level_app (level : str) (a b : list (str * str)) :
  count_level level (a ++ b) = count_level level a + count_level level b.
Proof.
  unfold count_level. rewrite filter_app, length_app. lia.
Qed.

Lemma generate_logs_counts (n : nat) (picks : Z -> str) :
  (forall i, picks i = lit "INFO" \/ picks i = lit "DEBUG") ->
  count_level (lit "ERROR") (generate_logs_plan (Z.of_nat n) picks) =
  (Z.of_nat n + 9) / 10 /\
  count_level (lit "WARNING") (generate_logs_plan (Z.of_nat n) picks) =
  (Z.of_nat n + 4) / 10.
Proof.
  intros Hp. unfold generate_logs_plan.
  induction n as [|n [IHe IHw]]; [split; reflexivity|].
  rewrite range_0_succ, map_app, !count_level_app, IHe, IHw.
  cbn [map]. unfold level_and_message, count_level.
  destruct (Z.of_nat n mod 10 =? 0) eqn:E10; cbn [filter fst].
  - apply Z.eqb_eq in E10.
    change (str_eqb (lit "ERROR") (lit "ERROR")) with true.
    change (str_eqb (lit "ERROR") (lit "WARNING")) with false.
    cbn [List.length]. split; zify;
      Z.to_euclidean_division_equations; lia.
  - apply Z.eqb_neq in E10.
    destruct (Z.of_nat n mod 5 =? 0) eqn:E5; cbn [filter fst].
    + apply Z.eqb_eq in E5.
      change (str_eqb (lit "WARNING") (lit "ERROR")) with false.
      change (str_eqb (lit "WARNING") (lit "WARNING")) with true.
      cbn [List.length]. split; zify;
        Z.to_euclidean_division_equations; lia.
    + apply Z.eqb_neq in E5.
      assert (str_eqb (picks (Z.of_nat n)) (lit "ERROR") = false /\
              str_eqb (picks (Z.of_nat n)) (lit "WARNING") = false) as [-> ->]
        by (destruct (Hp (Z.of_nat n)) as [-> | ->]; split; reflexivity).
      cbn [List.length]. split; zify;
        Z.to_euclidean_division_equations; lia.
Qed.

Lemma generate_logs_plan_to_nat (count : Z) (picks : Z -> str) :
  generate_logs_plan count picks =
  generate_logs_plan (Z.of_nat (Z.to_nat count)) picks.
Proof.
  unfold generate_logs_plan, range.
  rewrite !Z.sub_0_r, Nat2Z.id. reflexivity.
Qed.

(** [generate_logs] with [count] in the request makes [count] logs, none
    when [count] is negative; a tenth of them, rounded up, are ERROR logs
    (the indices that are multiples of 10) and a tenth, rounded to the
    nearest, are WARNING logs (the other multiples of 5). *)
Theorem generate_logs_schedule (count : Z) (picks : Z -> str) :
  (forall i, picks i = lit "INFO" \/ picks i = lit "DEBUG") ->
  Z.of_nat (List.length (generate_logs_plan count picks)) = Z.max 0 count /\
  count_level (lit "ERROR") (generate_logs_plan count picks) =
  (Z.max 0 count + 9) / 10 /\
  count_level (lit "WARNING") (generate_logs_plan count picks) =
  (Z.max 0 count + 4) / 10.
Proof.
  intros Hp.
  rewrite (generate_logs_plan_to_nat count picks).
  replace (Z.max 0 count) with (Z.of_nat (Z.to_nat count)) by lia.
  split; [|apply generate_logs_counts; exact Hp].
  unfold generate_logs_plan, range.
  rewrite length_map, length_map, length_seq. lia.
Qed.

Lemma generate_logs_schedule_witness :
  Z.of_nat (List.length (generate_logs_plan 25 (fun _ => lit "INFO"))) = 25 /\
  count_level (lit "ERROR") (generate_logs_plan 25 (fun _ => lit "INFO")) = 3 /\
  count_level (lit "WARNING") (generate_logs_plan 25 (fun _ => lit "INFO")) = 2.
Proof.
  apply (generate_logs_schedule 25 (fun _ => lit "INFO")).
  intros i. left. reflexivity.
Defined.
